(** * lametric-tesla: wake controller, telemetry formatter and icon resolver

    A shallow embedding of the two variants of the LaMetric/Tesla indicator
    ([app.js] and its near-duplicate sibling) together with the properties
    that the design document states about them.

    - JavaScript numbers that come out of the charge-state JSON are finite
      and are modelled by rationals ([Q]); [Math.round] is the exact
      function "nearest integer, ties towards +infinity".
    - Integers are rendered in decimal, which is what [Number::toString]
      does below [10^21].
    - The asynchronous functions are run-to-completion computations over a
      [World] (the replies the remote endpoints are going to give); every
      observable action is recorded, oldest first, in a list of [Event]s. *)

From Stdlib Require Import ZArith QArith Qround Qabs String Ascii List Bool Lia.
From Stdlib Require Import DecimalString Lqa.
From Equations Require Import Equations.
Import ListNotations.

Local Open Scope string_scope.
Local Open Scope Q_scope.

(** ** JavaScript primitives used by the program *)

Module JS.

(** [Math.round(x)]: the integer closest to [x]; of two equally close
    integers the one nearer to +infinity. *)
Definition Math_round (x : Q) : Z := Qfloor (x + (1 # 2)).

(** [String(n)] for an integral number [n]. *)
Definition Number_toString (n : Z) : string :=
  NilZero.string_of_int (Z.to_int n).

(** [x < y] and [x != y] on numbers. *)
Definition lt (x y : Q) : bool := negb (Qle_bool y x).
Definition neq (x y : Q) : bool := negb (Qeq_bool x y).

(** [JSON.stringify] on a string: QuoteJSONString. *)
Definition dquote : ascii := ascii_of_nat 34.
Definition backslash : ascii := ascii_of_nat 92.

Definition hex_digit (n : nat) : ascii :=
  if (n <? 10)%nat then ascii_of_nat (48 + n) else ascii_of_nat (87 + n).

Definition escape (c : ascii) : string :=
  let n := nat_of_ascii c in
  let esc (d : ascii) := String backslash (String d EmptyString) in
  if (n =? 34)%nat then esc dquote
  else if (n =? 92)%nat then esc backslash
  else if (n =? 8)%nat then esc "b"%char
  else if (n =? 9)%nat then esc "t"%char
  else if (n =? 10)%nat then esc "n"%char
  else if (n =? 12)%nat then esc "f"%char
  else if (n =? 13)%nat then esc "r"%char
  else if (n <? 32)%nat then
    String backslash
      ("u00" ++ String (hex_digit (n / 16)) (String (hex_digit (n mod 16)) EmptyString))
  else String c EmptyString.

Fixpoint escape_all (s : string) : string :=
  match s with
  | EmptyString => EmptyString
  | String c rest => escape c ++ escape_all rest
  end.

Definition quote (s : string) : string :=
  String dquote (escape_all s ++ String dquote EmptyString).

End JS.

(** ** Data model *)

(** The [response] object of the charge-state endpoint, restricted to the
    fields that either variant reads. *)
Record ChargeState := {
  battery_level : Q;
  battery_range : Q;
  charge_rate : Q;
  charger_actual_current : Q;
  charge_miles_added_ideal : Q;
  time_to_full_charge : Q
}.

(** The parsed body [data], read as [data.response.<field>]. *)
Record ChargeData := { response : ChargeState }.

(** One display frame; only the sibling variant sets ['index']. *)
Record Frame := { text : string; icon : string; index : option Z }.

(** The object [{ 'frames' : frames }] pushed to the display. *)
Record LametricRestData := { frames : list Frame }.

(** [JSON.stringify(messageBody)]: keys in insertion order, no spaces. *)
Definition stringify_frame (f : Frame) : string :=
  "{" ++ JS.quote "text" ++ ":" ++ JS.quote (text f) ++ ","
      ++ JS.quote "icon" ++ ":" ++ JS.quote (icon f)
      ++ match index f with
         | Some i => "," ++ JS.quote "index" ++ ":" ++ JS.Number_toString i
         | None => EmptyString
         end
      ++ "}".

Fixpoint stringify_frames (fs : list Frame) : string :=
  match fs with
  | [] => EmptyString
  | [f] => stringify_frame f
  | f :: rest => stringify_frame f ++ "," ++ stringify_frames rest
  end.

Definition JSON_stringify (messageBody : LametricRestData) : string :=
  "{" ++ JS.quote "frames" ++ ":[" ++ stringify_frames (frames messageBody) ++ "]}".

(** ** Effects *)

(** What the wake endpoint answers to one POST: a body whose
    [response.state] is the given string, or a transport/parse failure
    (the [await] throws). *)
Inductive WakeReply :=
| WakeState (state : string)
| WakeFailure.

(** What the charge-state endpoint answers to the GET. *)
Inductive ChargeReply :=
| ChargeOk (data : ChargeData)
| ChargeFailure.

(** The remote side: the replies still to come from the wake endpoint
    (position 0 answers the next request) and the reply of the
    charge-state endpoint. *)
Record World := {
  wake_replies : nat -> WakeReply;
  charge_reply : ChargeReply
}.

Inductive Request :=
| POST_WAKE_UP
| GET_CHARGE_DATA
| POST_LAMETRIC_APP (body : string).

Inductive Event :=
| Fetch (req : Request)                        (* fetch(url, {...}) issued *)
| WakeUpData (reply : WakeReply)               (* outcome of the wake request *)
| SetTimeout (ms : Z)                          (* await of a timer *)
| ConsoleLog (msg : string)                    (* console.log(string) *)
| ConsoleLogData (data : ChargeData)           (* console.log(data) *)
| ConsoleLogMessage (msg : string) (obj : LametricRestData).

Inductive Outcome (A : Type) :=
| Returned (a : A)
| Thrown.
Arguments Returned {A} a.
Arguments Thrown {A}.

(** The result of running a computation: how it ended, what is left of the
    world, and what it did. *)
Record Run (A : Type) := mkRun {
  outcome : Outcome A;
  world : World;
  events : list Event
}.
Arguments mkRun {A}.
Arguments outcome {A}.
Arguments world {A}.
Arguments events {A}.

Definition M (A : Type) : Type := World -> Run A.

Definition ret {A} (a : A) : M A := fun w => mkRun (Returned a) w [].

Definition bind {A B} (m : M A) (k : A -> M B) : M B :=
  fun w =>
    let r := m w in
    match outcome r with
    | Returned a =>
        let r' := k a (world r) in
        mkRun (outcome r') (world r') (events r ++ events r')
    | Thrown => mkRun Thrown (world r) (events r)
    end.

Definition emit (e : Event) : M unit := fun w => mkRun (Returned tt) w [e].

Declare Scope js_scope.
Delimit Scope js_scope with js.
Notation "x <- m ;; k" := (bind m (fun x => k))
  (at level 61, m at next level, right associativity) : js_scope.
Notation "m ;; k" := (bind m (fun _ => k))
  (at level 61, right associativity) : js_scope.

Definition console_log (msg : string) : M unit := emit (ConsoleLog msg).

(** [await fetch(WAKE_UP, ...)] followed by [await res.json()]: takes the
    next reply of the wake endpoint. *)
Definition fetch_WAKE_UP : M string :=
  fun w =>
    let reply := wake_replies w 0%nat in
    let w' := {| wake_replies := fun k => wake_replies w (S k);
                 charge_reply := charge_reply w |} in
    mkRun (match reply with
           | WakeState state => Returned state
           | WakeFailure => Thrown
           end)
          w' [Fetch POST_WAKE_UP; WakeUpData reply].

(** [await fetch(CHARGE_DATA, ...)] followed by [await res.json()]. *)
Definition fetch_CHARGE_DATA : M ChargeData :=
  fun w =>
    mkRun (match charge_reply w with
           | ChargeOk data => Returned data
           | ChargeFailure => Thrown
           end)
          w [Fetch GET_CHARGE_DATA].

(** [await new Promise((resolve) => setTimeout(resolve, ms))]. *)
Definition sleep (ms : Z) : M unit := emit (SetTimeout ms).

Local Open Scope js_scope.

(** ** The wake controller ([wakeUpVehicle], the same in both variants)

    The recursion is on [attempt]; it stops at the latest when [attempt]
    reaches 6.  The value of the recursive call is awaited and dropped, as
    in the source: control then falls through to the final [return true]. *)

Definition attempts_left (attempt : Z) : nat := Z.to_nat (6 - attempt).
Arguments attempts_left : simpl never.

Equations? wakeUpVehicle (attempt : Z) : M bool
  by wf (attempts_left attempt) lt :=
wakeUpVehicle attempt :=
  console_log "Attempting to wake up vehicle..." ;;
  state <- fetch_WAKE_UP ;;
  if negb (state =? "online")%string then
    match Z_ge_dec attempt 6 with
    | left _ =>
        (* After 6 failed attempts, wait until the next run *)
        console_log "Vehicle did not wake up. Exiting process." ;;
        ret false
    | right _ =>
        (* Give the vehicle 30 seconds to wake up before asking again *)
        console_log ("Vehicle is still " ++ state ++ ". Retrying in 30 seconds...") ;;
        sleep 30000 ;;
        _ <- wakeUpVehicle (attempt + 1) ;;
        console_log "Vehicle is a awake!" ;;
        ret true
    end
  else
    console_log "Vehicle is a awake!" ;;
    ret true.
Proof. unfold attempts_left. lia. Qed.

(** ** The telemetry fetcher ([getChargeData]) *)

Definition getChargeData : M ChargeData :=
  console_log "Attempting to get charge data..." ;;
  data <- fetch_CHARGE_DATA ;;
  console_log "Data fetched succesfully!" ;;
  emit (ConsoleLogData data) ;;
  ret data.

(** ** The display publisher ([pushLametricData])

    The request is issued and not awaited; what the [.then] callback logs
    happens after the run and is not part of it. *)

Definition pushLametricData (messageBody : LametricRestData) : M unit :=
  emit (Fetch (POST_LAMETRIC_APP (JSON_stringify messageBody))).

(** ** The run orchestrator ([runApp]), over the variant's formatter *)

Section Orchestrator.

Variable constructLametricData : ChargeData -> M LametricRestData.

Definition runApp_with : M unit :=
  (* Attempt to wake up vehicle. If it's asleep, this will retry. *)
  isAwake <- wakeUpVehicle 1 ;;
  console_log ("isAwake: " ++ (if isAwake : bool then "true" else "false")) ;;
  if isAwake then
    (* Get the charge data from the vehicle. *)
    vehicleData <- getChargeData ;;
    (* Create a JSON object to format the data for the LaMetric Time *)
    lametricData <- constructLametricData vehicleData ;;
    (* Send a POST callout to the Lametric Time Tesla App *)
    pushLametricData lametricData
  else ret tt.

End Orchestrator.

(** ** Variant [app.js]: variable layout, charging animation *)

Module PolicyB.

Definition getIcon (batteryLevel : Q) (isCharging : bool) : string :=
  (* Charging animation *)
  if isCharging then "21585"
  (* Return battery icon at appropriate level *)
  else if JS.lt batteryLevel 25 then "i6359"
  else if JS.lt batteryLevel 50 then "i6360"
  else if JS.lt batteryLevel 75 then "i6361"
  else if JS.lt batteryLevel 95 then "i6362"
  else "i6363".

(** [data.response.charge_rate != -1.0 ? true : false] *)
Definition isCharging (data : ChargeData) : bool :=
  if JS.neq (charge_rate (response data)) (-1) then true else false.

Definition constructLametricData (data : ChargeData) : M LametricRestData :=
  (* Uses charge rate metric to determine actual state of charge *)
  let isCharging := isCharging data in
  (* Build object to send to device *)
  let frames :=
    [ {| text := "Tesla";
         icon := "i2735";
         index := None |};
      {| text := JS.Number_toString (JS.Math_round (battery_level (response data))) ++ "%";
         icon := getIcon (battery_level (response data)) isCharging;
         index := None |};
      {| text := JS.Number_toString (JS.Math_round (battery_range (response data))) ++ " mi";
         icon := "16716";
         index := None |} ] in
  let frames :=
    if isCharging then
      let isChargingData :=
        [ {| text := "+" ++ JS.Number_toString
                              (JS.Math_round (charge_miles_added_ideal (response data)))
                         ++ " mi";
             icon := "i95";
             index := None |};
          {| text := JS.Number_toString (JS.Math_round (charge_rate (response data)))
                       ++ " mph";
             icon := "i95";
             index := None |};
          {| text := JS.Number_toString
                       (JS.Math_round (time_to_full_charge (response data)))
                       ++ " hours remaining.";
             icon := "i95";
             index := None |} ] in
      (frames ++ isChargingData)%list
    else frames in
  let lametricRestData := {| frames := frames |} in
  emit (ConsoleLogMessage "Constructed message: " lametricRestData) ;;
  ret lametricRestData.

Definition runApp : M unit := runApp_with constructLametricData.

Definition testSend : M unit :=
  let lametricRestData :=
    {| frames := [ {| text := "Hello"; icon := "21585"; index := None |};
                   {| text := "Again"; icon := "21585"; index := None |} ] |} in
  pushLametricData lametricRestData.

End PolicyB.

(** ** The sibling variant: fixed three-frame layout, tiered charging icons *)

Module PolicyA.

Definition getIcon (batteryLevel : Q) (isCharging : bool) : string :=
  if negb isCharging then "3582"
  else if JS.lt batteryLevel 25 then "i6359"
  else if JS.lt batteryLevel 50 then "i6360"
  else if JS.lt batteryLevel 75 then "i6361"
  else if JS.lt batteryLevel 95 then "i6362"
  else "i6363".

(** [data.response.charger_actual_current > 0 ? true : false] *)
Definition isCharging (data : ChargeData) : bool :=
  if JS.lt 0 (charger_actual_current (response data)) then true else false.

Definition constructLametricData (data : ChargeData) : M LametricRestData :=
  let isCharging := isCharging data in
  let frames :=
    [ {| text := "Tesla";
         icon := "i2735";
         index := Some 0%Z |};
      {| text := JS.Number_toString (JS.Math_round (battery_level (response data))) ++ "%";
         icon := getIcon (battery_level (response data)) isCharging;
         index := Some 1%Z |};
      {| text := JS.Number_toString (JS.Math_round (battery_range (response data))) ++ " mi";
         icon := "i16716";
         index := Some 2%Z |} ] in
  let lametricRestData := {| frames := frames |} in
  emit (ConsoleLogMessage "Constructed message: " lametricRestData) ;;
  ret lametricRestData.

Definition runApp : M unit := runApp_with constructLametricData.

Definition testSend : M unit :=
  let lametricRestData :=
    {| frames := [ {| text := "Testla"; icon := "i2735"; index := Some 0%Z |} ] |} in
  pushLametricData lametricRestData.

(** What loading this variant does: the schedule is commented out, the
    banner is logged and [testSend()] is called. *)
Definition script : M unit :=
  console_log "++++++ Server started, waiting for scheduled run... ++++++" ;;
  testSend.

End PolicyA.


(** ** Observing a run *)

Definition is_wake_request (e : Event) : bool :=
  match e with Fetch POST_WAKE_UP => true | _ => false end.

Definition is_backoff (e : Event) : bool :=
  match e with SetTimeout _ => true | _ => false end.

(** The three collaborators called by [runApp] after a successful wake are
    recognised by what they do: the fetcher issues the GET, the formatter
    logs the constructed message, the publisher issues the POST. *)
Definition is_fetcher_call (e : Event) : bool :=
  match e with Fetch GET_CHARGE_DATA => true | _ => false end.

Definition is_formatter_call (e : Event) : bool :=
  match e with ConsoleLogMessage _ _ => true | _ => false end.

Definition is_publisher_call (e : Event) : bool :=
  match e with Fetch (POST_LAMETRIC_APP _) => true | _ => false end.

Definition count (p : Event -> bool) (tr : list Event) : nat :=
  length (filter p tr).

Definition wake_requests (tr : list Event) : nat := count is_wake_request tr.
Definition backoffs (tr : list Event) : nat := count is_backoff tr.

(** The replies of the wake endpoint, in the order they were received. *)
Fixpoint wake_responses (tr : list Event) : list WakeReply :=
  match tr with
  | [] => []
  | WakeUpData reply :: rest => reply :: wake_responses rest
  | _ :: rest => wake_responses rest
  end.

(** What happens after the [n]-th reply of the wake endpoint was received
    ([n] counted from 1; everything is after the 0-th). *)
Fixpoint after_response (n : nat) (tr : list Event) : list Event :=
  match n, tr with
  | O, _ => tr
  | _, [] => []
  | S m, WakeUpData _ :: rest => after_response m rest
  | S _, _ :: rest => after_response n rest
  end.

Definition online : WakeReply := WakeState "online".

(** The payload a formatter run returns, if it returns. *)
Definition returned {A} (r : Run A) : option A :=
  match outcome r with
  | Returned a => Some a
  | Thrown => None
  end.

(** ** Vocabulary of the design document *)

(** The five battery bands of the icon resolver: lower bound included,
    upper bound excluded, except for the last band. *)
Inductive Band := Band_0_25 | Band_25_50 | Band_50_75 | Band_75_95 | Band_95_100.

Inductive in_band (batteryLevel : Q) : Band -> Prop :=
| in_0_25 : 0 <= batteryLevel -> batteryLevel < 25 -> in_band batteryLevel Band_0_25
| in_25_50 : 25 <= batteryLevel -> batteryLevel < 50 -> in_band batteryLevel Band_25_50
| in_50_75 : 50 <= batteryLevel -> batteryLevel < 75 -> in_band batteryLevel Band_50_75
| in_75_95 : 75 <= batteryLevel -> batteryLevel < 95 -> in_band batteryLevel Band_75_95
| in_95_100 : 95 <= batteryLevel -> batteryLevel <= 100 -> in_band batteryLevel Band_95_100.

(** The icon identifiers the source gives to the bands. *)
Definition tier_icon (b : Band) : string :=
  match b with
  | Band_0_25 => "i6359"
  | Band_25_50 => "i6360"
  | Band_50_75 => "i6361"
  | Band_75_95 => "i6362"
  | Band_95_100 => "i6363"
  end.

(** Rounding to the nearest integer with ties away from zero, as the
    design document words it: round the magnitude, keep the sign. *)
Definition round_half_away_from_zero (x : Q) : Z :=
  (Z.sgn (Qnum x) * Qfloor (Qabs x + (1 # 2)))%Z.

(** A rounded number as it appears in a frame text. *)
Definition rounded (x : Q) : string := JS.Number_toString (JS.Math_round x).

(** Two telemetry records hold the same numbers. *)
Definition same_telemetry (d1 d2 : ChargeData) : Prop :=
  battery_level (response d1) == battery_level (response d2) /\
  battery_range (response d1) == battery_range (response d2) /\
  charge_rate (response d1) == charge_rate (response d2) /\
  charger_actual_current (response d1) == charger_actual_current (response d2) /\
  charge_miles_added_ideal (response d1) == charge_miles_added_ideal (response d2) /\
  time_to_full_charge (response d1) == time_to_full_charge (response d2).

(** The end-to-end scenario of the design document. *)
Definition scenario : ChargeData :=
  {| response := {| battery_level := 60;
                    battery_range := 180.2;
                    charge_rate := 22.0;
                    charger_actual_current := 0;
                    charge_miles_added_ideal := 5.3;
                    time_to_full_charge := 1.4 |} |}.

(** A vehicle that stays asleep whatever is asked of it, behind a
    charge-state endpoint that answers with [scenario]. *)
Definition never_wakes : World :=
  {| wake_replies := fun _ => WakeState "asleep";
     charge_reply := ChargeOk scenario |}.

(** A vehicle that is online from the [n]-th request on. *)
Definition wakes_at (n : nat) : World :=
  {| wake_replies := fun k => if (S k <? n)%nat then WakeState "asleep" else online;
     charge_reply := ChargeOk scenario |}.

(** ** One attempt of the wake controller, piece by piece *)

(** A reply after which the controller has not made up its mind: a state
    other than "online". *)
Definition undecided (reply : WakeReply) : bool :=
  match reply with
  | WakeState state => negb (state =? "online")%string
  | WakeFailure => false
  end.

(** What every attempt starts with. *)
Definition asked (reply : WakeReply) : list Event :=
  [ConsoleLog "Attempting to wake up vehicle..."; Fetch POST_WAKE_UP; WakeUpData reply].

(** An attempt that saw [state], waited, and continued with the run [r] of
    the next attempt. *)
Definition retried (state : string) (r : Run bool) : Run bool :=
  {| outcome := match outcome r with Returned _ => Returned true | Thrown => Thrown end;
     world := world r;
     events :=
       (asked (WakeState state)
        ++ [ConsoleLog ("Vehicle is still " ++ state ++ ". Retrying in 30 seconds...");
            SetTimeout 30000]
        ++ events r
        ++ match outcome r with
           | Returned _ => [ConsoleLog "Vehicle is a awake!"]
           | Thrown => []
           end)%list |}.

(** The time spent waiting on timers, in milliseconds. *)
Fixpoint total_wait (tr : list Event) : Z :=
  match tr with
  | [] => 0%Z
  | SetTimeout ms :: rest => (ms + total_wait rest)%Z
  | _ :: rest => total_wait rest
  end.

(** The log lines that announce an awake vehicle. *)
Definition is_awake_line (e : Event) : bool :=
  match e with
  | ConsoleLog msg => (msg =? "Vehicle is a awake!")%string
  | _ => false
  end.

Definition awake_lines (tr : list Event) : nat := count is_awake_line tr.

(** The last event of a run, if any. *)
Definition last_event (tr : list Event) : option Event :=
  match rev tr with
  | [] => None
  | e :: _ => Some e
  end.

(** A wake endpoint that fails on the first request. *)
Definition unreachable : World :=
  {| wake_replies := fun _ => WakeFailure; charge_reply := ChargeOk scenario |}.

(** An online vehicle behind a failing charge-state endpoint. *)
Definition no_charge_data : World :=
  {| wake_replies := fun _ => online; charge_reply := ChargeFailure |}.

(** * Properties *)

(** ** The monad *)

Lemma bind_returned {A B} (m : M A) (k : A -> M B) (w : World) (a : A) :
  outcome (m w) = Returned a ->
  bind m k w = mkRun (outcome (k a (world (m w))))
                     (world (k a (world (m w))))
                     (events (m w) ++ events (k a (world (m w)))).
Proof. intros H. unfold bind. rewrite H. reflexivity. Qed.

Lemma bind_thrown {A B} (m : M A) (k : A -> M B) (w : World) :
  outcome (m w) = Thrown ->
  bind m k w = mkRun Thrown (world (m w)) (events (m w)).
Proof. intros H. unfold bind. rewrite H. reflexivity. Qed.

(** ** JavaScript comparisons and rounding *)

Lemma lt_true (x y : Q) : JS.lt x y = true <-> x < y.
Proof.
  unfold JS.lt. rewrite negb_true_iff.
  destruct (Qle_bool y x) eqn:E.
  - apply Qle_bool_iff in E. split; [discriminate | intros H; exfalso; apply (Qlt_not_le _ _ H E)].
  - split; [intros _ | reflexivity].
    apply Qnot_le_lt. intros H. apply Qle_bool_iff in H. congruence.
Qed.

Lemma lt_false (x y : Q) : JS.lt x y = false <-> y <= x.
Proof.
  unfold JS.lt. rewrite negb_false_iff. apply Qle_bool_iff.
Qed.

Lemma neq_true (x y : Q) : JS.neq x y = true <-> ~ x == y.
Proof.
  unfold JS.neq. rewrite negb_true_iff.
  destruct (Qeq_bool x y) eqn:E.
  - apply Qeq_bool_iff in E. split; [discriminate | tauto].
  - split; [intros _ H | reflexivity]. apply Qeq_bool_iff in H. congruence.
Qed.

#[local] Instance lt_comp : Proper (Qeq ==> Qeq ==> eq) JS.lt.
Proof. intros x x' Hx y y' Hy. unfold JS.lt. now rewrite Hx, Hy. Qed.

#[local] Instance neq_comp : Proper (Qeq ==> Qeq ==> eq) JS.neq.
Proof. intros x x' Hx y y' Hy. unfold JS.neq. now rewrite Hx, Hy. Qed.

#[local] Instance Math_round_comp : Proper (Qeq ==> eq) JS.Math_round.
Proof. intros x x' Hx. unfold JS.Math_round. now rewrite Hx. Qed.

#[local] Instance rounded_comp : Proper (Qeq ==> eq) rounded.
Proof. intros x x' Hx. unfold rounded. now rewrite Hx. Qed.

(** [Math.round] returns an integer at distance at most one half. *)
Lemma Math_round_nearest (x : Q) :
  inject_Z (JS.Math_round x) - (1 # 2) <= x /\ x < inject_Z (JS.Math_round x) + (1 # 2).
Proof.
  unfold JS.Math_round.
  pose proof (Qfloor_le (x + (1 # 2))) as Hlo.
  pose proof (Qlt_floor (x + (1 # 2))) as Hhi.
  rewrite inject_Z_plus in Hhi.
  change (inject_Z 1) with 1 in Hhi.
  split; lra.
Qed.

Lemma Math_round_half_away (x : Q) :
  0 <= x -> JS.Math_round x = round_half_away_from_zero x.
Proof.
  intros Hx. unfold round_half_away_from_zero, JS.Math_round.
  rewrite (Qabs_pos x Hx).
  destruct x as [n d]. unfold Qle in Hx. simpl in Hx. simpl Qnum.
  assert (Hn : (0 <= n)%Z) by lia.
  destruct (Z.eq_dec n 0) as [-> | Hnz].
  - rewrite (Qfloor_comp ((0 # d) + (1 # 2)) (1 # 2)); [reflexivity |].
    unfold Qeq, Qplus. simpl. lia.
  - rewrite Z.sgn_pos by lia. lia.
Qed.

(** ** The icon resolver *)

Lemma tiers_of_band (batteryLevel : Q) (b : Band) :
  in_band batteryLevel b ->
  (if JS.lt batteryLevel 25 then "i6359"
   else if JS.lt batteryLevel 50 then "i6360"
   else if JS.lt batteryLevel 75 then "i6361"
   else if JS.lt batteryLevel 95 then "i6362"
   else "i6363") = tier_icon b.
Proof.
  assert (Hge : forall lo hi, lo <= batteryLevel -> hi <= lo -> JS.lt batteryLevel hi = false).
  { intros lo hi H1 H2. apply lt_false. now apply Qle_trans with lo. }
  assert (Hlt : forall hi, batteryLevel < hi -> JS.lt batteryLevel hi = true).
  { intros hi H. now apply lt_true. }
  intros [Hlo Hhi | Hlo Hhi | Hlo Hhi | Hlo Hhi | Hlo Hhi]; simpl.
  - now rewrite (Hlt 25 Hhi).
  - rewrite (Hge 25 25 Hlo), (Hlt 50 Hhi); [reflexivity | apply Qle_refl].
  - rewrite (Hge 50 25 Hlo), (Hge 50 50 Hlo), (Hlt 75 Hhi);
      [reflexivity | apply Qle_refl | discriminate].
  - rewrite (Hge 75 25 Hlo), (Hge 75 50 Hlo), (Hge 75 75 Hlo), (Hlt 95 Hhi);
      [reflexivity | apply Qle_refl | discriminate | discriminate].
  - rewrite (Hge 95 25 Hlo), (Hge 95 50 Hlo), (Hge 95 75 Hlo), (Hge 95 95 Hlo);
      [reflexivity | apply Qle_refl | discriminate | discriminate | discriminate].
Qed.

Lemma band_exists (batteryLevel : Q) :
  0 <= batteryLevel <= 100 -> exists b, in_band batteryLevel b.
Proof.
  intros [Hlo Hhi].
  destruct (Qlt_le_dec batteryLevel 25); [exists Band_0_25; now constructor |].
  destruct (Qlt_le_dec batteryLevel 50); [exists Band_25_50; now constructor |].
  destruct (Qlt_le_dec batteryLevel 75); [exists Band_50_75; now constructor |].
  destruct (Qlt_le_dec batteryLevel 95); [exists Band_75_95; now constructor |].
  exists Band_95_100; now constructor.
Qed.

(** C3, as stated, fails on [app.js]: when the vehicle is not charging the
    icon of that variant is not a fixed one, it follows the battery level. *)
Lemma app_idle_icon_follows_level :
  ~ exists idle : string,
      forall batteryLevel : Q,
        0 <= batteryLevel <= 100 -> PolicyB.getIcon batteryLevel false = idle.
Proof.
  intros [idle H].
  assert (H10 : PolicyB.getIcon 10 false = idle) by (apply H; split; discriminate).
  assert (H60 : PolicyB.getIcon 60 false = idle) by (apply H; split; discriminate).
  vm_compute in H10, H60. congruence.
Qed.

(** C3, amended: a battery level between 0 and 100 lies in one of the five
    bands, and for whichever band contains it
    - the sibling variant returns the fixed idle icon ['3582'] when not
      charging and the icon of that band when charging;
    - [app.js] returns the single charging animation ['21585'] when
      charging and the icon of that band when not charging. *)
Theorem getIcon_by_variant (batteryLevel : Q) :
  0 <= batteryLevel <= 100 ->
  (exists b : Band, in_band batteryLevel b) /\
  (forall b : Band,
      in_band batteryLevel b ->
      PolicyA.getIcon batteryLevel false = "3582" /\
      PolicyA.getIcon batteryLevel true = tier_icon b /\
      PolicyB.getIcon batteryLevel true = "21585" /\
      PolicyB.getIcon batteryLevel false = tier_icon b).
Proof.
  intros Hrange. split; [now apply band_exists |].
  intros b Hb. pose proof (tiers_of_band batteryLevel b Hb) as Htier.
  repeat split; trivial.
Qed.

Lemma getIcon_by_variant_at_60 :
  0 <= 60 <= 100 /\
  PolicyA.getIcon 60 false = "3582" /\
  PolicyA.getIcon 60 true = "i6361" /\
  PolicyB.getIcon 60 true = "21585" /\
  PolicyB.getIcon 60 false = "i6361".
Proof.
  assert (H : 0 <= 60 <= 100) by (split; discriminate).
  split; [exact H |].
  refine (proj2 (getIcon_by_variant 60 H) Band_50_75 _).
  constructor; [discriminate | reflexivity].
Defined.

(** ** The telemetry formatter *)

(** Both formatters return, leave the world alone and log the payload. *)
Lemma constructLametricData_B_run (data : ChargeData) (w : World) :
  exists p : LametricRestData,
    PolicyB.constructLametricData data w
    = mkRun (Returned p) w [ConsoleLogMessage "Constructed message: " p].
Proof. eexists. reflexivity. Qed.

Lemma constructLametricData_A_run (data : ChargeData) (w : World) :
  exists p : LametricRestData,
    PolicyA.constructLametricData data w
    = mkRun (Returned p) w [ConsoleLogMessage "Constructed message: " p].
Proof. eexists. reflexivity. Qed.

Lemma isCharging_B_spec (data : ChargeData) :
  PolicyB.isCharging data = true <-> ~ charge_rate (response data) == -1.
Proof.
  unfold PolicyB.isCharging.
  destruct (JS.neq (charge_rate (response data)) (-1)) eqn:E.
  - split; [intros _ | reflexivity]. now apply neq_true.
  - split; [discriminate |]. intros H. apply neq_true in H. congruence.
Qed.

Lemma isCharging_A_spec (data : ChargeData) :
  PolicyA.isCharging data = true <-> 0 < charger_actual_current (response data).
Proof.
  unfold PolicyA.isCharging.
  destruct (JS.lt 0 (charger_actual_current (response data))) eqn:E.
  - split; [intros _ | reflexivity]. now apply lt_true.
  - split; [discriminate |]. intros H. apply lt_true in H. congruence.
Qed.

(** C4: in [app.js], [isCharging] holds exactly when [charge_rate] differs
    from -1 (in particular when it is 0); a charging vehicle gets the three
    base frames followed by the three charging frames, six in all, and a
    [charge_rate] of -1 gets exactly the three base frames. *)
Theorem policyB_frames (data : ChargeData) (w : World) :
  let r := response data in
  let base :=
    [ {| text := "Tesla"; icon := "i2735"; index := None |};
      {| text := rounded (battery_level r) ++ "%";
         icon := PolicyB.getIcon (battery_level r) (PolicyB.isCharging data);
         index := None |};
      {| text := rounded (battery_range r) ++ " mi"; icon := "16716"; index := None |} ] in
  let charging :=
    [ {| text := "+" ++ rounded (charge_miles_added_ideal r) ++ " mi";
         icon := "i95"; index := None |};
      {| text := rounded (charge_rate r) ++ " mph"; icon := "i95"; index := None |};
      {| text := rounded (time_to_full_charge r) ++ " hours remaining.";
         icon := "i95"; index := None |} ] in
  (PolicyB.isCharging data = true <-> ~ charge_rate r == -1) /\
  (charge_rate r == 0 -> PolicyB.isCharging data = true) /\
  (PolicyB.isCharging data = true ->
   exists p, returned (PolicyB.constructLametricData data w) = Some p /\
             frames p = (base ++ charging)%list /\ length (frames p) = 6%nat) /\
  (charge_rate r == -1 ->
   exists p, returned (PolicyB.constructLametricData data w) = Some p /\
             frames p = base /\ length (frames p) = 3%nat).
Proof.
  intros r base charging.
  pose proof (isCharging_B_spec data) as Hspec. fold r in Hspec.
  split; [exact Hspec |]. split; [| split].
  - intros H0. apply Hspec. intros Hm. rewrite H0 in Hm. discriminate Hm.
  - intros Hc. eexists. split; [reflexivity |].
    subst base charging r. cbn [frames]. rewrite Hc. split; reflexivity.
  - intros Hm.
    assert (Hc : PolicyB.isCharging data = false).
    { destruct (PolicyB.isCharging data) eqn:E; [| reflexivity].
      exfalso. now apply (proj1 Hspec). }
    eexists. split; [reflexivity |].
    subst base charging r. cbn [frames]. rewrite Hc. split; reflexivity.
Qed.

Lemma policyB_frames_scenario :
  PolicyB.isCharging scenario = true /\
  exists p, returned (PolicyB.constructLametricData scenario never_wakes) = Some p /\
            length (frames p) = 6%nat.
Proof.
  split; [reflexivity |].
  destruct (policyB_frames scenario never_wakes) as (_ & _ & Hsix & _).
  destruct (Hsix eq_refl) as (p & Hp & _ & Hlen).
  exists p. split; [exact Hp | exact Hlen].
Defined.

(** C5, as stated, fails on the sibling variant: its charging flag is not
    read off [charge_rate]; a record with a positive [charge_rate] and no
    charger current is not charging. *)
Lemma policyA_ignores_charge_rate :
  ~ forall data : ChargeData,
      PolicyA.isCharging data = JS.lt 0 (charge_rate (response data)).
Proof.
  intros H. specialize (H scenario). vm_compute in H. discriminate H.
Qed.

(** C5, amended: the sibling variant always emits exactly three frames
    (vehicle label, rounded battery percent, rounded range); the charging
    state shows only in the icon of the second frame, so that two records
    with the same battery level and range get the same texts and the same
    first and third frame; and [isCharging] is derived as
    [charger_actual_current > 0]. *)
Theorem policyA_frames (data : ChargeData) (w : World) :
  let r := response data in
  (PolicyA.isCharging data = true <-> 0 < charger_actual_current r) /\
  exists p,
    returned (PolicyA.constructLametricData data w) = Some p /\
    frames p =
      [ {| text := "Tesla"; icon := "i2735"; index := Some 0%Z |};
        {| text := rounded (battery_level r) ++ "%";
           icon := PolicyA.getIcon (battery_level r) (PolicyA.isCharging data);
           index := Some 1%Z |};
        {| text := rounded (battery_range r) ++ " mi";
           icon := "i16716"; index := Some 2%Z |} ] /\
    length (frames p) = 3%nat /\
    forall (data' : ChargeData) (w' : World) (p' : LametricRestData),
      battery_level (response data') == battery_level r ->
      battery_range (response data') == battery_range r ->
      returned (PolicyA.constructLametricData data' w') = Some p' ->
      map text (frames p') = map text (frames p) /\
      map index (frames p') = map index (frames p) /\
      nth_error (frames p') 0 = nth_error (frames p) 0 /\
      nth_error (frames p') 2 = nth_error (frames p) 2.
Proof.
  intros r. split; [apply isCharging_A_spec |].
  eexists. split; [reflexivity |]. split; [reflexivity |]. split; [reflexivity |].
  intros data' w' p' Hlevel Hrange Hp'.
  injection Hp' as <-. subst r.
  cbn [frames map nth_error text index].
  rewrite (Math_round_comp _ _ Hlevel), (Math_round_comp _ _ Hrange).
  repeat split; reflexivity.
Qed.

Lemma policyA_frames_scenario :
  ~ 0 < charger_actual_current (response scenario) /\
  PolicyA.isCharging scenario = false /\
  exists p,
    returned (PolicyA.constructLametricData scenario never_wakes) = Some p /\
    length (frames p) = 3%nat.
Proof.
  destruct (policyA_frames scenario never_wakes) as (Hiff & p & Hp & _ & Hlen & _).
  assert (Hzero : ~ 0 < charger_actual_current (response scenario)) by (intros H; discriminate H).
  split; [exact Hzero |]. split.
  - destruct (PolicyA.isCharging scenario) eqn:E; [| reflexivity].
    exfalso. apply Hzero, Hiff. reflexivity.
  - exists p. split; [exact Hp | exact Hlen].
Defined.

(** C6, as stated, fails: on the scenario the second frame does not carry
    the icon of the band from 50 to 75. *)
Lemma scenario_second_icon_is_not_the_tier :
  ~ exists (p : LametricRestData) (f : Frame),
      returned (PolicyB.constructLametricData scenario never_wakes) = Some p /\
      map text (frames p)
      = ["Tesla"; "60%"; "180 mi"; "+5 mi"; "22 mph"; "1 hours remaining."] /\
      nth_error (frames p) 1 = Some f /\
      icon f = tier_icon Band_50_75.
Proof.
  intros (p & f & Hp & _ & Hf & Hicon).
  injection Hp as <-. vm_compute in Hf. injection Hf as <-.
  vm_compute in Hicon. discriminate Hicon.
Qed.

(** C6, amended: on the scenario [app.js] yields six frames whose texts are
    "Tesla", "60%", "180 mi", "+5 mi", "22 mph", "1 hours remaining." in
    that order, and whose second frame carries the charging animation
    ['21585']. *)
Theorem scenario_payload (w : World) :
  returned (PolicyB.constructLametricData scenario w)
  = Some {| frames :=
      [ {| text := "Tesla"; icon := "i2735"; index := None |};
        {| text := "60%"; icon := "21585"; index := None |};
        {| text := "180 mi"; icon := "16716"; index := None |};
        {| text := "+5 mi"; icon := "i95"; index := None |};
        {| text := "22 mph"; icon := "i95"; index := None |};
        {| text := "1 hours remaining."; icon := "i95"; index := None |} ] |}.
Proof. reflexivity. Qed.

Lemma getIcon_B_comp (x y : Q) (c : bool) :
  x == y -> PolicyB.getIcon x c = PolicyB.getIcon y c.
Proof.
  intros H. unfold PolicyB.getIcon.
  now rewrite !(fun z => lt_comp x y H z z (Qeq_refl z)).
Qed.

Lemma getIcon_A_comp (x y : Q) (c : bool) :
  x == y -> PolicyA.getIcon x c = PolicyA.getIcon y c.
Proof.
  intros H. unfold PolicyA.getIcon.
  now rewrite !(fun z => lt_comp x y H z z (Qeq_refl z)).
Qed.

Lemma Math_round_distance (x : Q) : Qabs (x - inject_Z (JS.Math_round x)) <= 1 # 2.
Proof.
  destruct (Math_round_nearest x) as [Hlo Hhi].
  revert Hlo Hhi. generalize (inject_Z (JS.Math_round x)). intros n Hlo Hhi.
  apply Qabs_Qle_condition. split; lra.
Qed.

Lemma isCharging_B_comp (d1 d2 : ChargeData) :
  same_telemetry d1 d2 -> PolicyB.isCharging d1 = PolicyB.isCharging d2.
Proof.
  intros (_ & _ & Hrate & _). unfold PolicyB.isCharging.
  now rewrite (neq_comp _ _ Hrate (-1) (-1) (Qeq_refl _)).
Qed.

Lemma isCharging_A_comp (d1 d2 : ChargeData) :
  same_telemetry d1 d2 -> PolicyA.isCharging d1 = PolicyA.isCharging d2.
Proof.
  intros (_ & _ & _ & Hcurrent & _). unfold PolicyA.isCharging.
  now rewrite (lt_comp 0 0 (Qeq_refl _) _ _ Hcurrent).
Qed.

(** C7: every number that appears in a frame text is the field passed
    through [Math.round]; [Math.round] yields an integer at distance at most
    one half, and on a non-negative number it agrees with rounding half away
    from zero.  A battery level of 87.6 is rendered "88%" and a range of
    142.4 is rendered "142 mi", in both variants. *)
Theorem formatter_rounding (data : ChargeData) (w : World) :
  let r := response data in
  exists pA pB,
    returned (PolicyA.constructLametricData data w) = Some pA /\
    returned (PolicyB.constructLametricData data w) = Some pB /\
    map text (frames pA)
    = ["Tesla"; rounded (battery_level r) ++ "%"; rounded (battery_range r) ++ " mi"] /\
    map text (frames pB)
    = List.app
        ["Tesla"; rounded (battery_level r) ++ "%"; rounded (battery_range r) ++ " mi"]
        (if PolicyB.isCharging data
         then ["+" ++ rounded (charge_miles_added_ideal r) ++ " mi";
               rounded (charge_rate r) ++ " mph";
               rounded (time_to_full_charge r) ++ " hours remaining."]
         else []) /\
    (forall x : Q,
        Qabs (x - inject_Z (JS.Math_round x)) <= 1 # 2 /\
        (0 <= x -> rounded x = JS.Number_toString (round_half_away_from_zero x))) /\
    (battery_level r == 87.6 ->
     nth_error (map text (frames pA)) 1 = Some "88%" /\
     nth_error (map text (frames pB)) 1 = Some "88%") /\
    (battery_range r == 142.4 ->
     nth_error (map text (frames pA)) 2 = Some "142 mi" /\
     nth_error (map text (frames pB)) 2 = Some "142 mi").
Proof.
  intros r. do 2 eexists.
  split; [reflexivity |]. split; [reflexivity |]. split; [reflexivity |].
  split; [| split; [| split]].
  - cbn [frames]. destruct (PolicyB.isCharging data); reflexivity.
  - intros x. split; [apply Math_round_distance |].
    intros Hx. unfold rounded. now rewrite (Math_round_half_away x Hx).
  - intros H. cbn [frames].
    destruct (PolicyB.isCharging data); cbn [map app nth_error text];
      fold r; rewrite (Math_round_comp _ _ H); split; reflexivity.
  - intros H. cbn [frames].
    destruct (PolicyB.isCharging data); cbn [map app nth_error text];
      fold r; rewrite (Math_round_comp _ _ H); split; reflexivity.
Qed.

Lemma formatter_rounding_example :
  let data := {| response := {| battery_level := 87.6;
                                battery_range := 142.4;
                                charge_rate := -1;
                                charger_actual_current := 0;
                                charge_miles_added_ideal := 0;
                                time_to_full_charge := 0 |} |} in
  0 <= 87.6 /\
  rounded 87.6 = JS.Number_toString (round_half_away_from_zero 87.6) /\
  exists pA pB,
    returned (PolicyA.constructLametricData data never_wakes) = Some pA /\
    returned (PolicyB.constructLametricData data never_wakes) = Some pB /\
    nth_error (map text (frames pA)) 1 = Some "88%" /\
    nth_error (map text (frames pB)) 1 = Some "88%" /\
    nth_error (map text (frames pA)) 2 = Some "142 mi" /\
    nth_error (map text (frames pB)) 2 = Some "142 mi".
Proof.
  intros data.
  destruct (formatter_rounding data never_wakes)
    as (pA & pB & HA & HB & _ & _ & Hround & Hlevel & Hrange).
  assert (Hpos : 0 <= 87.6) by discriminate.
  split; [exact Hpos |]. split; [exact (proj2 (Hround 87.6) Hpos) |].
  exists pA, pB.
  destruct (Hlevel (Qeq_refl _)) as [HlA HlB].
  destruct (Hrange (Qeq_refl _)) as [HrA HrB].
  repeat split; assumption.
Defined.

(** C8: the formatter depends on nothing but the numbers in its argument.
    Run on records holding the same numbers, in whatever worlds, either
    variant returns the same payload, leaves the world as it was and logs
    the same line; the request body the publisher then serialises from it
    is the same, byte for byte. *)
Theorem formatter_deterministic (d1 d2 : ChargeData) (w1 w2 : World) :
  same_telemetry d1 d2 ->
  (exists p,
      PolicyA.constructLametricData d1 w1
      = mkRun (Returned p) w1 [ConsoleLogMessage "Constructed message: " p] /\
      PolicyA.constructLametricData d2 w2
      = mkRun (Returned p) w2 [ConsoleLogMessage "Constructed message: " p]) /\
  (exists p,
      PolicyB.constructLametricData d1 w1
      = mkRun (Returned p) w1 [ConsoleLogMessage "Constructed message: " p] /\
      PolicyB.constructLametricData d2 w2
      = mkRun (Returned p) w2 [ConsoleLogMessage "Constructed message: " p]) /\
  events (bind (PolicyA.constructLametricData d1) pushLametricData w1)
  = events (bind (PolicyA.constructLametricData d2) pushLametricData w2) /\
  events (bind (PolicyB.constructLametricData d1) pushLametricData w1)
  = events (bind (PolicyB.constructLametricData d2) pushLametricData w2).
Proof.
  intros Hsame.
  pose proof (isCharging_A_comp d1 d2 Hsame) as HcA.
  pose proof (isCharging_B_comp d1 d2 Hsame) as HcB.
  destruct Hsame as (Hlevel & Hrange & Hrate & _ & Hadded & Htime).
  assert (HA : PolicyA.constructLametricData d1 w1
               = mkRun (outcome (PolicyA.constructLametricData d2 w2)) w1
                       (events (PolicyA.constructLametricData d2 w2))).
  { unfold PolicyA.constructLametricData, bind, emit, ret.
    cbv beta iota zeta delta [outcome world events List.app].
    rewrite HcA, (Math_round_comp _ _ Hlevel), (Math_round_comp _ _ Hrange),
      (getIcon_A_comp _ _ _ Hlevel).
    reflexivity. }
  assert (HB : PolicyB.constructLametricData d1 w1
               = mkRun (outcome (PolicyB.constructLametricData d2 w2)) w1
                       (events (PolicyB.constructLametricData d2 w2))).
  { unfold PolicyB.constructLametricData, bind, emit, ret.
    cbv beta iota zeta delta [outcome world events List.app].
    rewrite HcB, (Math_round_comp _ _ Hlevel), (Math_round_comp _ _ Hrange),
      (Math_round_comp _ _ Hrate), (Math_round_comp _ _ Hadded),
      (Math_round_comp _ _ Htime), (getIcon_B_comp _ _ _ Hlevel).
    reflexivity. }
  destruct (constructLametricData_A_run d2 w2) as [pA HpA].
  destruct (constructLametricData_B_run d2 w2) as [pB HpB].
  rewrite HpA in HA. rewrite HpB in HB. cbn [outcome events] in HA, HB.
  split; [exists pA; now split |]. split; [exists pB; now split |].
  unfold bind. rewrite HA, HB, HpA, HpB. split; reflexivity.
Qed.

Lemma formatter_deterministic_example :
  let d1 := scenario in
  let d2 := {| response := {| battery_level := 120 # 2;
                              battery_range := 1802 # 10;
                              charge_rate := 44 # 2;
                              charger_actual_current := 0 # 7;
                              charge_miles_added_ideal := 53 # 10;
                              time_to_full_charge := 14 # 10 |} |} in
  same_telemetry d1 d2 /\
  events (bind (PolicyB.constructLametricData d1) pushLametricData never_wakes)
  = events (bind (PolicyB.constructLametricData d2) pushLametricData (wakes_at 1)).
Proof.
  intros d1 d2.
  assert (H : same_telemetry d1 d2) by (repeat split).
  split; [exact H |].
  exact (proj2 (proj2 (proj2 (formatter_deterministic d1 d2 never_wakes (wakes_at 1) H)))).
Defined.

(** C9: in both variants the payload has at least one frame, and the frames
    come in a fixed order: vehicle label, battery percent, range, and then,
    in [app.js] when charging, miles added, charge rate and hours
    remaining. *)
Theorem payload_order (data : ChargeData) (w : World) :
  let r := response data in
  exists pA pB,
    returned (PolicyA.constructLametricData data w) = Some pA /\
    returned (PolicyB.constructLametricData data w) = Some pB /\
    (1 <= length (frames pA))%nat /\
    (1 <= length (frames pB))%nat /\
    frames pA
    = [ {| text := "Tesla"; icon := "i2735"; index := Some 0%Z |};
        {| text := rounded (battery_level r) ++ "%";
           icon := PolicyA.getIcon (battery_level r) (PolicyA.isCharging data);
           index := Some 1%Z |};
        {| text := rounded (battery_range r) ++ " mi";
           icon := "i16716"; index := Some 2%Z |} ] /\
    frames pB
    = List.app
        [ {| text := "Tesla"; icon := "i2735"; index := None |};
          {| text := rounded (battery_level r) ++ "%";
             icon := PolicyB.getIcon (battery_level r) (PolicyB.isCharging data);
             index := None |};
          {| text := rounded (battery_range r) ++ " mi";
             icon := "16716"; index := None |} ]
        (if PolicyB.isCharging data
         then [ {| text := "+" ++ rounded (charge_miles_added_ideal r) ++ " mi";
                   icon := "i95"; index := None |};
                {| text := rounded (charge_rate r) ++ " mph";
                   icon := "i95"; index := None |};
                {| text := rounded (time_to_full_charge r) ++ " hours remaining.";
                   icon := "i95"; index := None |} ]
         else []).
Proof.
  intros r. do 2 eexists.
  split; [reflexivity |]. split; [reflexivity |].
  cbn [frames]. split; [cbn [length]; lia |].
  case (PolicyB.isCharging data); (split; [cbn [length app]; lia |]);
    split; reflexivity.
Qed.

(** C10: in both variants the first frame is the constant frame with text
    "Tesla" and icon "i2735", whatever the telemetry. *)
Theorem first_frame_is_label (data : ChargeData) (w : World) :
  exists pA pB,
    returned (PolicyA.constructLametricData data w) = Some pA /\
    returned (PolicyB.constructLametricData data w) = Some pB /\
    hd_error (frames pA) = Some {| text := "Tesla"; icon := "i2735"; index := Some 0%Z |} /\
    hd_error (frames pB) = Some {| text := "Tesla"; icon := "i2735"; index := None |}.
Proof.
  do 2 eexists. split; [reflexivity |]. split; [reflexivity |].
  cbn [frames]. split; [reflexivity |].
  case (PolicyB.isCharging data); reflexivity.
Qed.

(** ** The wake controller *)

(** The world once the next reply of the wake endpoint has been taken. *)
Lemma fetch_WAKE_UP_world (w : World) (k : nat) :
  wake_replies (world (fetch_WAKE_UP w)) k = wake_replies w (S k).
Proof. reflexivity. Qed.

(** One attempt, spelled out: what [wakeUpVehicle attempt] does with the
    next reply. *)
Lemma wakeUpVehicle_step (attempt : Z) (w : World) :
  let w' := world (fetch_WAKE_UP w) in
  let asked reply :=
    [ConsoleLog "Attempting to wake up vehicle..."; Fetch POST_WAKE_UP; WakeUpData reply] in
  wakeUpVehicle attempt w =
  match wake_replies w 0%nat with
  | WakeFailure => mkRun Thrown w' (asked WakeFailure)
  | WakeState state =>
      if (state =? "online")%string then
        mkRun (Returned true) w'
              (asked (WakeState state) ++ [ConsoleLog "Vehicle is a awake!"])
      else if Z_ge_dec attempt 6 then
        mkRun (Returned false) w'
              (asked (WakeState state)
               ++ [ConsoleLog "Vehicle did not wake up. Exiting process."])
      else
        let r := wakeUpVehicle (attempt + 1) w' in
        mkRun (match outcome r with Returned _ => Returned true | Thrown => Thrown end)
              (world r)
              (asked (WakeState state)
               ++ [ConsoleLog ("Vehicle is still " ++ state ++ ". Retrying in 30 seconds...");
                   SetTimeout 30000]
               ++ events r
               ++ match outcome r with
                  | Returned _ => [ConsoleLog "Vehicle is a awake!"]
                  | Thrown => []
                  end)%list
  end.
Proof.
  intros w' asked. rewrite wakeUpVehicle_equation_1. subst w' asked.
  unfold bind, console_log, sleep, emit, ret, fetch_WAKE_UP.
  cbn [outcome world events].
  destruct (wake_replies w 0%nat) as [state |]; [| reflexivity].
  cbn [outcome world events].
  destruct (state =? "online")%string; cbn [negb outcome world events].
  - reflexivity.
  - destruct (Z_ge_dec attempt 6); cbn [outcome world events]; [reflexivity |].
    destruct (outcome (wakeUpVehicle (attempt + 1) _)); cbn [outcome world events app];
      rewrite ?app_nil_r; reflexivity.
Qed.

Lemma count_app (p : Event -> bool) (tr1 tr2 : list Event) :
  count p (tr1 ++ tr2) = (count p tr1 + count p tr2)%nat.
Proof. unfold count. now rewrite filter_app, length_app. Qed.

Lemma wake_responses_app (tr1 tr2 : list Event) :
  wake_responses (tr1 ++ tr2) = (wake_responses tr1 ++ wake_responses tr2)%list.
Proof.
  induction tr1 as [| e tr1 IH]; [reflexivity |].
  destruct e; cbn [app wake_responses]; now rewrite IH.
Qed.

Lemma after_response_0 (tr : list Event) : after_response 0 tr = tr.
Proof. now destruct tr. Qed.

(** Events appended after the [n]-th reply stay after it. *)
Lemma after_response_app (n : nat) (tr post : list Event) :
  (n <= length (wake_responses tr))%nat ->
  after_response n (tr ++ post) = (after_response n tr ++ post)%list.
Proof.
  revert n. induction tr as [| e tr IH]; intros n Hn.
  - cbn [wake_responses length] in Hn. replace n with 0%nat by lia.
    now rewrite !after_response_0.
  - destruct n as [| m]; [now rewrite !after_response_0 |].
    destruct e; cbn [app after_response wake_responses length] in *;
      apply IH; lia.
Qed.

Lemma nth_error_singleton {A} (x y : A) (n : nat) :
  nth_error [x] n = Some y -> n = 0%nat /\ x = y.
Proof.
  destruct n as [| n]; cbn.
  - intros [= ->]. now split.
  - destruct n; discriminate.
Qed.

Lemma not_online (state : string) :
  (state =? "online")%string = false -> WakeState state <> online.
Proof.
  intros Hneq [= ->]. rewrite String.eqb_refl in Hneq. discriminate Hneq.
Qed.

Lemma attempts_left_next (attempt : Z) (k : nat) :
  ~ (attempt >= 6)%Z -> (attempts_left attempt <= S k)%nat ->
  (attempts_left (attempt + 1) <= k)%nat.
Proof. unfold attempts_left. lia. Qed.

(** What one invocation of the wake controller does, whatever the wake
    endpoint replies: it asks at most once more than there are attempts
    left, it receives one reply per request, and if the [S n]-th reply it
    received says "online" then it asked [S n] times, waited [n] times,
    neither asked nor waited any more after that reply, and returned
    [true]. *)
Lemma wake_controller_invariant (k : nat) :
  forall (attempt : Z) (w : World),
    (attempts_left attempt <= k)%nat ->
    let r := wakeUpVehicle attempt w in
    (wake_requests (events r) <= S k)%nat /\
    length (wake_responses (events r)) = wake_requests (events r) /\
    forall n : nat,
      nth_error (wake_responses (events r)) n = Some online ->
      wake_requests (events r) = S n /\
      backoffs (events r) = n /\
      wake_requests (after_response (S n) (events r)) = 0%nat /\
      backoffs (after_response (S n) (events r)) = 0%nat /\
      outcome r = Returned true.
Proof.
  induction k as [| k IH]; intros attempt w Hleft r; subst r;
    rewrite wakeUpVehicle_step; cbv zeta;
    (destruct (wake_replies w 0%nat) as [state |];
     [destruct (state =? "online")%string eqn:Hstate;
      [| destruct (Z_ge_dec attempt 6) as [Hge | Hlt]] |]).
  all: try (cbn [events outcome app];
            split; [cbn; lia |]; split; [reflexivity |];
            intros n Hn; apply nth_error_singleton in Hn; destruct Hn as [-> Hn];
            solve [ repeat split; reflexivity
                  | now apply not_online in Hn
                  | discriminate Hn ]).
  - exfalso. unfold attempts_left in Hleft. lia.
  - pose proof (attempts_left_next attempt k Hlt Hleft) as Hnext.
    specialize (IH (attempt + 1)%Z (world (fetch_WAKE_UP w)) Hnext).
    cbv zeta in IH.
    set (r := wakeUpVehicle (attempt + 1) (world (fetch_WAKE_UP w))) in *.
    destruct IH as (Hbound & Hlen & Honline).
    cbn [events outcome].
    set (post := match outcome r with
                 | Returned _ => [ConsoleLog "Vehicle is a awake!"]
                 | Thrown => []
                 end).
    assert (Hpost : wake_requests post = 0%nat /\ backoffs post = 0%nat
                    /\ wake_responses post = []).
    { subst post. destruct (outcome r); repeat split; reflexivity. }
    destruct Hpost as (Hpost_req & Hpost_back & Hpost_resp).
    unfold wake_requests, backoffs in *.
    rewrite !wake_responses_app, !count_app, Hpost_resp, Hpost_req, app_nil_r.
    cbn [wake_responses app length].
    change (count is_wake_request [ConsoleLog "Attempting to wake up vehicle...";
                                   Fetch POST_WAKE_UP; WakeUpData (WakeState state)])
      with 1%nat.
    change (count is_wake_request
              [ConsoleLog ("Vehicle is still " ++ state ++ ". Retrying in 30 seconds...");
               SetTimeout 30000]) with 0%nat.
    split; [lia |]. split; [lia |].
    intros [| n] Hn.
    + cbn [nth_error] in Hn. injection Hn as Hn.
      exfalso. apply (not_online state Hstate). unfold online. congruence.
    + cbn [nth_error] in Hn. destruct (Honline n Hn) as (Hreq & Hback & Haft_req & Haft_back & Hout).
      cbn [app after_response].
      rewrite after_response_app by (rewrite Hlen, Hreq; lia).
      rewrite !count_app, Haft_req, Haft_back, Hpost_req, Hpost_back, Hback, Hout.
      repeat split; try reflexivity.
      * lia.
      * cbn. lia.
Qed.

(** The replies received are the first replies of the wake endpoint, as
    many as there were requests. *)
Lemma wake_responses_are_replies (k : nat) :
  forall (attempt : Z) (w : World),
    (attempts_left attempt <= k)%nat ->
    let r := wakeUpVehicle attempt w in
    wake_responses (events r) = map (wake_replies w) (seq 0 (wake_requests (events r))).
Proof.
  induction k as [| k IH]; intros attempt w Hleft r; subst r;
    rewrite wakeUpVehicle_step; cbv zeta;
    (destruct (wake_replies w 0%nat) as [state |] eqn:Hreply;
     [destruct (state =? "online")%string eqn:Hstate;
      [| destruct (Z_ge_dec attempt 6) as [Hge | Hlt]] |]).
  all: try (cbn; now rewrite Hreply).
  - exfalso. unfold attempts_left in Hleft. lia.
  - pose proof (attempts_left_next attempt k Hlt Hleft) as Hnext.
    specialize (IH (attempt + 1)%Z (world (fetch_WAKE_UP w)) Hnext).
    cbv zeta in IH.
    set (r := wakeUpVehicle (attempt + 1) (world (fetch_WAKE_UP w))) in *.
    cbn [events].
    set (post := match outcome r with
                 | Returned _ => [ConsoleLog "Vehicle is a awake!"]
                 | Thrown => []
                 end).
    assert (Hpost : wake_requests post = 0%nat /\ wake_responses post = []).
    { subst post. destruct (outcome r); split; reflexivity. }
    destruct Hpost as (Hpost_req & Hpost_resp).
    unfold wake_requests in *.
    rewrite !wake_responses_app, !count_app, Hpost_resp, Hpost_req, app_nil_r, IH.
    cbn [wake_responses app].
    change (count is_wake_request [ConsoleLog "Attempting to wake up vehicle...";
                                   Fetch POST_WAKE_UP; WakeUpData (WakeState state)])
      with 1%nat.
    change (count is_wake_request
              [ConsoleLog ("Vehicle is still " ++ state ++ ". Retrying in 30 seconds...");
               SetTimeout 30000]) with 0%nat.
    rewrite Nat.add_0_r. cbn [Nat.add seq map]. rewrite Hreply. f_equal.
    rewrite <- seq_shift, map_map. reflexivity.
Qed.

(** For each [n] from 1 to 6 there is a vehicle whose [n]-th reply is the
    first to say "online". *)
Lemma wakes_at_online (n : nat) :
  (1 <= n <= 6)%nat ->
  nth_error (wake_responses (events (wakeUpVehicle 1 (wakes_at n)))) (n - 1) = Some online.
Proof.
  intros Hn.
  destruct n as [| [| [| [| [| [| [| n]]]]]]]; try lia; vm_compute; reflexivity.
Qed.

(** C2: whatever the wake endpoint replies, one invocation of the wake
    controller issues at most 6 wake requests; and for [n] between 1 and 6,
    if the [n]-th reply says "online", then exactly [n] requests were
    issued, and after that reply the controller neither asks again nor
    waits: it has waited [n - 1] times in all and returns [true]. *)
Theorem wake_retry_bound (w : World) (n : nat) :
  let r := wakeUpVehicle 1 w in
  (wake_requests (events r) <= 6)%nat /\
  ((1 <= n <= 6)%nat ->
   nth_error (wake_responses (events r)) (n - 1) = Some online ->
   wake_requests (events r) = n /\
   wake_requests (after_response n (events r)) = 0%nat /\
   backoffs (after_response n (events r)) = 0%nat /\
   backoffs (events r) = (n - 1)%nat /\
   outcome r = Returned true).
Proof.
  intros r.
  assert (Hleft : (attempts_left 1 <= 5)%nat) by (unfold attempts_left; lia).
  destruct (wake_controller_invariant 5 1 w Hleft) as (Hbound & _ & Honline).
  fold r in Hbound, Honline.
  split; [exact Hbound |].
  intros Hn Hreply.
  destruct (Honline (n - 1)%nat Hreply) as (Hreq & Hback & Haft_req & Haft_back & Hout).
  replace (S (n - 1)) with n in * by lia.
  repeat split; assumption.
Qed.

Lemma wake_retry_bound_third_attempt :
  let r := wakeUpVehicle 1 (wakes_at 3) in
  (1 <= 3 <= 6)%nat /\
  nth_error (wake_responses (events r)) 2 = Some online /\
  wake_requests (events r) = 3%nat /\
  backoffs (events r) = 2%nat /\
  backoffs (after_response 3 (events r)) = 0%nat.
Proof.
  intros r.
  assert (Hn : (1 <= 3 <= 6)%nat) by lia.
  assert (Hreply : nth_error (wake_responses (events r)) (3 - 1) = Some online)
    by (vm_compute; reflexivity).
  destruct (proj2 (wake_retry_bound (wakes_at 3) 3) Hn Hreply)
    as (Hreq & _ & Haft_back & Hback & _).
  repeat split; try assumption; lia.
Defined.

(** ** The run orchestrator *)

(** Called as [runApp] calls it, the wake controller never returns [false]:
    the [false] of the sixth attempt is the value of an awaited call whose
    result the fifth attempt drops. *)
Lemma wakeUpVehicle_never_false (w : World) :
  outcome (wakeUpVehicle 1 w) <> Returned false.
Proof.
  rewrite wakeUpVehicle_step. cbv zeta.
  destruct (wake_replies w 0%nat) as [state |]; [| discriminate].
  destruct (state =? "online")%string; [discriminate |].
  destruct (Z_ge_dec 1 6) as [Hge | _]; [lia |].
  cbn [outcome].
  destruct (outcome (wakeUpVehicle (1 + 1) (world (fetch_WAKE_UP w)))); discriminate.
Qed.

(** Hence, unless the wake request itself fails, [runApp] goes on to ask
    for the charge data. *)
Lemma runApp_fetches_unless_wake_throws
  (constructLametricData : ChargeData -> M LametricRestData) (w : World) :
  outcome (wakeUpVehicle 1 w) <> Thrown ->
  In (Fetch GET_CHARGE_DATA) (events (runApp_with constructLametricData w)).
Proof.
  intros Hwake. pose proof (wakeUpVehicle_never_false w) as Htrue.
  unfold runApp_with, getChargeData, bind, console_log, emit, ret, fetch_CHARGE_DATA.
  cbn [outcome world events].
  destruct (outcome (wakeUpVehicle 1 w)) as [[|] |]; [| congruence | congruence].
  cbn [outcome world events].
  apply in_or_app. right.
  destruct (charge_reply (world (wakeUpVehicle 1 w))) as [data |];
    cbn [outcome world events app];
    do 2 right; left; reflexivity.
Qed.

(** C1 (the code departs from it): against a vehicle that answers "asleep"
    to all six wake requests, the wake controller logs that it gives up and
    nevertheless returns [true], and [runApp] calls the telemetry fetcher,
    the formatter and the display publisher, once each, in both variants. *)
Theorem gave_up_is_not_propagated :
  let wake := wakeUpVehicle 1 never_wakes in
  wake_responses (events wake) = repeat (WakeState "asleep") 6 /\
  In (ConsoleLog "Vehicle did not wake up. Exiting process.") (events wake) /\
  outcome wake = Returned true /\
  (count is_fetcher_call (events (PolicyB.runApp never_wakes)) = 1%nat /\
   count is_formatter_call (events (PolicyB.runApp never_wakes)) = 1%nat /\
   count is_publisher_call (events (PolicyB.runApp never_wakes)) = 1%nat) /\
  (count is_fetcher_call (events (PolicyA.runApp never_wakes)) = 1%nat /\
   count is_formatter_call (events (PolicyA.runApp never_wakes)) = 1%nat /\
   count is_publisher_call (events (PolicyA.runApp never_wakes)) = 1%nat).
Proof.
  cbv zeta. split; [vm_compute; reflexivity |]. split.
  - vm_compute. repeat (try (left; reflexivity); right).
  - repeat split; vm_compute; reflexivity.
Qed.

(** * Further properties of the code *)

(** ** The wake controller, by cases *)

(** Reasoning by induction on the attempts: a property of every run of the
    wake controller follows from its four ways of handling a reply. *)
Lemma wakeUpVehicle_cases (P : Z -> World -> Run bool -> Prop) :
  (forall attempt w,
      wake_replies w 0%nat = WakeFailure ->
      P attempt w (mkRun Thrown (world (fetch_WAKE_UP w)) (asked WakeFailure))) ->
  (forall attempt w state,
      wake_replies w 0%nat = WakeState state ->
      (state =? "online")%string = true ->
      P attempt w (mkRun (Returned true) (world (fetch_WAKE_UP w))
                         (asked (WakeState state) ++ [ConsoleLog "Vehicle is a awake!"]))) ->
  (forall attempt w state,
      wake_replies w 0%nat = WakeState state ->
      (state =? "online")%string = false ->
      (attempt >= 6)%Z ->
      P attempt w (mkRun (Returned false) (world (fetch_WAKE_UP w))
                         (asked (WakeState state)
                          ++ [ConsoleLog "Vehicle did not wake up. Exiting process."]))) ->
  (forall attempt w state,
      wake_replies w 0%nat = WakeState state ->
      (state =? "online")%string = false ->
      ~ (attempt >= 6)%Z ->
      P (attempt + 1)%Z (world (fetch_WAKE_UP w))
        (wakeUpVehicle (attempt + 1) (world (fetch_WAKE_UP w))) ->
      P attempt w (retried state (wakeUpVehicle (attempt + 1) (world (fetch_WAKE_UP w))))) ->
  forall attempt w, P attempt w (wakeUpVehicle attempt w).
Proof.
  intros Hfail Honline Hgaveup Hretry attempt.
  remember (attempts_left attempt) as k eqn:Hk.
  revert attempt Hk.
  induction k as [k IH] using lt_wf_ind. intros attempt Hk w.
  rewrite wakeUpVehicle_step. cbv zeta.
  destruct (wake_replies w 0%nat) as [state |] eqn:Hreply; [| now apply Hfail].
  destruct (state =? "online")%string eqn:Hstate; [now apply Honline |].
  destruct (Z_ge_dec attempt 6) as [Hge | Hlt]; [now apply Hgaveup |].
  apply (Hretry attempt w state Hreply Hstate Hlt).
  apply (IH (attempts_left (attempt + 1))); [| reflexivity].
  subst k. unfold attempts_left. lia.
Qed.

Ltac wake_cases attempt w :=
  pattern attempt, w, (wakeUpVehicle attempt w);
  revert attempt w; apply wakeUpVehicle_cases; cbv beta.

Lemma total_wait_app (tr1 tr2 : list Event) :
  total_wait (tr1 ++ tr2) = (total_wait tr1 + total_wait tr2)%Z.
Proof.
  induction tr1 as [| e tr1 IH]; [reflexivity |].
  destruct e; cbn [app total_wait]; rewrite IH; lia.
Qed.

(** What the pieces of an attempt contribute to the counts. *)
Lemma retried_counts (state : string) (r : Run bool) :
  wake_requests (events (retried state r)) = S (wake_requests (events r)) /\
  backoffs (events (retried state r)) = S (backoffs (events r)) /\
  total_wait (events (retried state r)) = (30000 + total_wait (events r))%Z /\
  wake_responses (events (retried state r))
  = WakeState state :: wake_responses (events r) /\
  count is_fetcher_call (events (retried state r)) = count is_fetcher_call (events r) /\
  count is_formatter_call (events (retried state r)) = count is_formatter_call (events r) /\
  count is_publisher_call (events (retried state r)) = count is_publisher_call (events r).
Proof.
  unfold retried, wake_requests, backoffs. cbn [events].
  rewrite !count_app, !total_wait_app, !wake_responses_app.
  destruct (outcome r);
    cbn [asked count filter length total_wait wake_responses app is_wake_request
         is_backoff is_fetcher_call is_formatter_call is_publisher_call];
    rewrite ?app_nil_r; repeat split; try reflexivity; lia.
Qed.

(** X1: the wake controller returns [false] exactly when it is called with
    an attempt number of 6 or more and the reply is a state other than
    "online". *)
Theorem wakeUpVehicle_false_iff (attempt : Z) (w : World) :
  outcome (wakeUpVehicle attempt w) = Returned false
  <-> (attempt >= 6)%Z /\ undecided (wake_replies w 0%nat) = true.
Proof.
  rewrite wakeUpVehicle_step. cbv zeta. unfold undecided.
  destruct (wake_replies w 0%nat) as [state |].
  - destruct (state =? "online")%string; cbn [negb outcome].
    + split; [discriminate | intros [_ H]; discriminate H].
    + destruct (Z_ge_dec attempt 6) as [Hge | Hlt]; cbn [outcome].
      * split; [now split | reflexivity].
      * destruct (outcome (wakeUpVehicle (attempt + 1) _));
          (split; [discriminate | intros [H _]; contradiction]).
  - cbn [outcome]. split; [discriminate | intros [_ H]; discriminate H].
Qed.

Lemma wakeUpVehicle_false_at_6 :
  (6 >= 6)%Z /\ undecided (wake_replies never_wakes 0%nat) = true /\
  outcome (wakeUpVehicle 6 never_wakes) = Returned false.
Proof.
  assert (Hge : (6 >= 6)%Z) by lia.
  assert (Hreply : undecided (wake_replies never_wakes 0%nat) = true) by reflexivity.
  split; [exact Hge |]. split; [exact Hreply |].
  exact (proj2 (wakeUpVehicle_false_iff 6 never_wakes) (conj Hge Hreply)).
Defined.

(** X2: the controller stops at the first reply that is "online" or a
    failure: the replies it received are some undecided ones followed by one
    last reply; it throws exactly when that last reply is a failure; and if
    even the last reply is undecided, it has used up all its attempts. *)
Theorem wake_stops_at_first_decisive_reply (attempt : Z) (w : World) :
  let r := wakeUpVehicle attempt w in
  exists (init : list WakeReply) (final : WakeReply),
    wake_responses (events r) = (init ++ [final])%list /\
    forallb undecided init = true /\
    (outcome r = Thrown <-> final = WakeFailure) /\
    (undecided final = true -> wake_requests (events r) = S (attempts_left attempt)).
Proof.
  cbv zeta. wake_cases attempt w.
  - intros attempt w _. exists [], WakeFailure. cbn.
    repeat split; try reflexivity; discriminate.
  - intros attempt w state _ Hstate. exists [], (WakeState state). cbn.
    rewrite Hstate. repeat split; try reflexivity; discriminate.
  - intros attempt w state _ Hstate Hge. exists [], (WakeState state). cbn.
    repeat split; try reflexivity; try discriminate.
    unfold attempts_left. replace (Z.to_nat (6 - attempt)) with 0%nat by lia. reflexivity.
  - intros attempt w state _ Hstate Hlt (init & final & Hresp & Hinit & Hthrown & Hused).
    destruct (retried_counts state (wakeUpVehicle (attempt + 1) (world (fetch_WAKE_UP w))))
      as (Hreq & _ & _ & Hresp' & _).
    exists (WakeState state :: init), final.
    rewrite Hresp', Hresp, Hreq. cbn [app forallb undecided]. rewrite Hstate, Hinit.
    split; [reflexivity |]. split; [reflexivity |]. split.
    + rewrite <- Hthrown. unfold retried. cbn [outcome].
      destruct (outcome (wakeUpVehicle (attempt + 1) _)); split; congruence.
    + intros Hfinal. rewrite (Hused Hfinal). unfold attempts_left. lia.
Qed.

Lemma wake_stops_at_first_decisive_reply_example :
  let r := wakeUpVehicle 1 never_wakes in
  exists (init : list WakeReply) (final : WakeReply),
    wake_responses (events r) = (init ++ [final])%list /\
    undecided final = true /\
    wake_requests (events r) = 6%nat.
Proof.
  intros r.
  destruct (wake_stops_at_first_decisive_reply 1 never_wakes)
    as (init & final & Hresp & _ & _ & Hused).
  fold r in Hresp, Hused.
  assert (Hfinal : undecided final = true).
  { assert (Hlast : last (wake_responses (events r)) WakeFailure = WakeState "asleep")
      by (vm_compute; reflexivity).
    rewrite Hresp, last_last in Hlast. now subst final. }
  exists init, final. split; [exact Hresp |]. split; [exact Hfinal |].
  exact (Hused Hfinal).
Defined.

(** Requests and waits alternate; every wait is of 30000 ms. *)
Lemma wake_waits (attempt : Z) (w : World) :
  let r := wakeUpVehicle attempt w in
  wake_requests (events r) = S (backoffs (events r)) /\
  total_wait (events r) = (30000 * Z.of_nat (backoffs (events r)))%Z /\
  (backoffs (events r) <= attempts_left attempt)%nat.
Proof.
  cbv zeta. wake_cases attempt w.
  - intros attempt w _. cbn. repeat split; lia.
  - intros attempt w state _ _. cbn. repeat split; lia.
  - intros attempt w state _ _ _. cbn. repeat split; lia.
  - intros attempt w state _ _ Hlt (Hreq & Hwait & Hleft).
    destruct (retried_counts state (wakeUpVehicle (attempt + 1) (world (fetch_WAKE_UP w))))
      as (Hreq' & Hback' & Hwait' & _).
    rewrite Hreq', Hback', Hwait', Hreq, Hwait.
    split; [reflexivity |]. split; [lia |].
    unfold attempts_left in *. lia.
Qed.

(** The wake controller leaves the charge-state endpoint alone. *)
Lemma wake_leaves_charge_endpoint (attempt : Z) (w : World) :
  charge_reply (world (wakeUpVehicle attempt w)) = charge_reply w.
Proof.
  wake_cases attempt w; try reflexivity.
  intros attempt w state _ _ _ IH. exact IH.
Qed.

(** The controller received at least one reply, and it throws exactly when
    the last reply it received is a failure. *)
Lemma wake_throws_iff_last_failed (attempt : Z) (w : World) :
  let r := wakeUpVehicle attempt w in
  wake_responses (events r) <> [] /\
  (outcome r = Thrown <-> last (wake_responses (events r)) WakeFailure = WakeFailure).
Proof.
  cbv zeta. wake_cases attempt w.
  - intros attempt w _. cbn. split; [discriminate | split; reflexivity].
  - intros attempt w state _ _. cbn. split; [discriminate | split; discriminate].
  - intros attempt w state _ _ _. cbn. split; [discriminate | split; discriminate].
  - intros attempt w state _ _ _ [Hnonempty Hthrown].
    set (r := wakeUpVehicle (attempt + 1) (world (fetch_WAKE_UP w))) in *.
    destruct (retried_counts state r) as (_ & _ & _ & Hresp & _).
    rewrite Hresp. split; [discriminate |].
    replace (last (WakeState state :: wake_responses (events r)) WakeFailure)
      with (last (wake_responses (events r)) WakeFailure)
      by (destruct (wake_responses (events r)); [contradiction | reflexivity]).
    rewrite <- Hthrown. unfold retried. cbn [outcome].
    destruct (outcome r); split; congruence.
Qed.

(** X3: between two consecutive wake requests the controller waits exactly
    once, for 30000 ms, and it does not wait otherwise: there is one wait
    less than there are requests, whether the run returns or throws, and
    the time spent waiting is 30000 ms per wait, never more than 30000 ms
    per attempt left (150000 ms for a run started by [runApp]). *)
Theorem wake_waits_between_requests (attempt : Z) (w : World) :
  let r := wakeUpVehicle attempt w in
  wake_requests (events r) = S (backoffs (events r)) /\
  total_wait (events r) = (30000 * Z.of_nat (backoffs (events r)))%Z /\
  (total_wait (events r) <= 30000 * Z.of_nat (attempts_left attempt))%Z /\
  (total_wait (events (wakeUpVehicle 1 w)) <= 150000)%Z.
Proof.
  cbv zeta.
  destruct (wake_waits attempt w) as (Hreq & Hwait & Hleft).
  destruct (wake_waits 1%Z w) as (_ & Hwait1 & Hleft1).
  split; [exact Hreq |]. split; [exact Hwait |]. split; [lia |].
  unfold attempts_left in Hleft1. lia.
Qed.

(** X4: whatever attempt number it is started with, the controller issues
    at least one wake request and at most one more than there are attempts
    left up to the sixth; started at 6 or beyond it asks exactly once and
    never waits, started below 1 it may ask more than six times. *)
Theorem wake_requests_from_attempt (attempt : Z) (w : World) :
  let r := wakeUpVehicle attempt w in
  (1 <= wake_requests (events r) <= S (attempts_left attempt))%nat /\
  ((attempt >= 6)%Z -> wake_requests (events r) = 1%nat /\ backoffs (events r) = 0%nat) /\
  wake_requests (events (wakeUpVehicle 0 never_wakes)) = 7%nat.
Proof.
  cbv zeta.
  destruct (wake_waits attempt w) as (Hreq & _ & Hleft).
  assert (Hbound : (1 <= wake_requests (events (wakeUpVehicle attempt w))
                    <= S (attempts_left attempt))%nat) by lia.
  split; [exact Hbound |]. split.
  - intros Hge. unfold attempts_left in Hbound.
    replace (Z.to_nat (6 - attempt)) with 0%nat in Hbound by lia. lia.
  - vm_compute. reflexivity.
Qed.

Lemma wake_requests_from_attempt_6 :
  (6 >= 6)%Z /\
  wake_requests (events (wakeUpVehicle 6 (wakes_at 3))) = 1%nat /\
  backoffs (events (wakeUpVehicle 6 (wakes_at 3))) = 0%nat.
Proof.
  assert (Hge : (6 >= 6)%Z) by lia.
  split; [exact Hge |].
  exact (proj1 (proj2 (wake_requests_from_attempt 6 (wakes_at 3))) Hge).
Defined.


Lemma undecided_not_online (state : string) :
  (state =? "online")%string = true -> undecided (WakeState state) = false.
Proof. intros H. cbn. now rewrite H. Qed.

(** X6: read off the endpoint's replies: if the first [n] replies are
    states other than "online" and the next one is "online", with [n] no
    more than the attempts left, then the controller asks [n + 1] times,
    waits [n] times and returns [true]. *)
Theorem wake_until_first_online (attempt : Z) (w : World) (n : nat) :
  (n <= attempts_left attempt)%nat ->
  (forall j : nat, (j < n)%nat -> undecided (wake_replies w j) = true) ->
  wake_replies w n = online ->
  let r := wakeUpVehicle attempt w in
  wake_requests (events r) = S n /\
  backoffs (events r) = n /\
  outcome r = Returned true.
Proof.
  cbv zeta. revert n. wake_cases attempt w.
  - intros attempt w Hreply n _ Hbefore Hn. exfalso.
    destruct n as [| n]; [unfold online in Hn; congruence |].
    specialize (Hbefore 0%nat ltac:(lia)). rewrite Hreply in Hbefore. discriminate Hbefore.
  - intros attempt w state Hreply Hstate n _ Hbefore _.
    destruct n as [| n]; [repeat split |]. exfalso.
    specialize (Hbefore 0%nat ltac:(lia)). rewrite Hreply in Hbefore.
    rewrite (undecided_not_online state Hstate) in Hbefore. discriminate Hbefore.
  - intros attempt w state Hreply Hstate Hge n Hn _ Honline. exfalso.
    assert (n = 0%nat) as -> by (unfold attempts_left in Hn; lia).
    rewrite Hreply in Honline. now apply (not_online state Hstate).
  - intros attempt w state Hreply Hstate Hlt IH n Hn Hbefore Honline.
    destruct n as [| n].
    + exfalso. rewrite Hreply in Honline. now apply (not_online state Hstate).
    + destruct (IH n) as (Hreq & Hback & Hout).
      * unfold attempts_left in *. lia.
      * intros j Hj. rewrite fetch_WAKE_UP_world. apply Hbefore. lia.
      * rewrite fetch_WAKE_UP_world. exact Honline.
      * destruct (retried_counts state
                    (wakeUpVehicle (attempt + 1) (world (fetch_WAKE_UP w))))
          as (Hreq' & Hback' & _).
        rewrite Hreq', Hback', Hreq, Hback. unfold retried. cbn [outcome].
        rewrite Hout. repeat split.
Qed.

Lemma wake_until_first_online_example :
  (4 <= attempts_left 1)%nat /\
  wake_replies (wakes_at 5) 4 = online /\
  wake_requests (events (wakeUpVehicle 1 (wakes_at 5))) = 5%nat /\
  backoffs (events (wakeUpVehicle 1 (wakes_at 5))) = 4%nat /\
  outcome (wakeUpVehicle 1 (wakes_at 5)) = Returned true.
Proof.
  assert (Hn : (4 <= attempts_left 1)%nat) by (unfold attempts_left; lia).
  assert (Hbefore : forall j : nat, (j < 4)%nat -> undecided (wake_replies (wakes_at 5) j) = true).
  { intros j Hj. destruct j as [| [| [| [| j]]]]; try lia; reflexivity. }
  assert (Honline : wake_replies (wakes_at 5) 4 = online) by reflexivity.
  split; [exact Hn |]. split; [exact Honline |].
  exact (wake_until_first_online 1 (wakes_at 5) 4 Hn Hbefore Honline).
Defined.

(** X7: if the replies to all the attempts that are left are states other
    than "online", the controller uses every attempt, logs that the vehicle
    did not wake up, and returns [false] only when it was started at attempt
    6 or beyond: started below 6, as [runApp] starts it, it returns
    [true]. *)
Theorem wake_exhausts_attempts (attempt : Z) (w : World) :
  (forall j : nat, (j <= attempts_left attempt)%nat -> undecided (wake_replies w j) = true) ->
  let r := wakeUpVehicle attempt w in
  wake_requests (events r) = S (attempts_left attempt) /\
  In (ConsoleLog "Vehicle did not wake up. Exiting process.") (events r) /\
  outcome r = Returned (attempt <? 6)%Z.
Proof.
  cbv zeta. wake_cases attempt w.
  - intros attempt w Hreply Hall. exfalso.
    specialize (Hall 0%nat ltac:(lia)). rewrite Hreply in Hall. discriminate Hall.
  - intros attempt w state Hreply Hstate Hall. exfalso.
    specialize (Hall 0%nat ltac:(lia)). rewrite Hreply in Hall.
    rewrite (undecided_not_online state Hstate) in Hall. discriminate Hall.
  - intros attempt w state _ _ Hge _. cbn [events outcome].
    replace (attempt <? 6)%Z with false by (symmetry; apply Z.ltb_ge; lia).
    unfold attempts_left. replace (Z.to_nat (6 - attempt)) with 0%nat by lia.
    split; [reflexivity |]. split; [| reflexivity].
    apply in_or_app. right. left. reflexivity.
  - intros attempt w state _ _ Hlt IH Hall.
    destruct IH as (Hreq & Hlog & Hout).
    { intros j Hj. rewrite fetch_WAKE_UP_world. apply Hall.
      unfold attempts_left in *. lia. }
    destruct (retried_counts state (wakeUpVehicle (attempt + 1) (world (fetch_WAKE_UP w))))
      as (Hreq' & _).
    rewrite Hreq', Hreq. unfold retried. cbn [outcome events]. rewrite Hout.
    replace (attempt <? 6)%Z with true by (symmetry; apply Z.ltb_lt; lia).
    split; [unfold attempts_left; lia |]. split; [| reflexivity].
    apply in_or_app. right. apply in_or_app. right. apply in_or_app. left. exact Hlog.
Qed.

Lemma wake_exhausts_attempts_example :
  wake_requests (events (wakeUpVehicle 1 never_wakes)) = 6%nat /\
  outcome (wakeUpVehicle 1 never_wakes) = Returned true.
Proof.
  assert (Hall : forall j : nat,
             (j <= attempts_left 1)%nat -> undecided (wake_replies never_wakes j) = true)
    by (intros j _; reflexivity).
  destruct (wake_exhausts_attempts 1 never_wakes Hall) as (Hreq & _ & Hout).
  split; [exact Hreq | exact Hout].
Defined.

(** ** The run orchestrator, by cases *)

(** The wake controller calls none of the other collaborators. *)
Lemma wake_calls_nothing_else (attempt : Z) (w : World) :
  let r := wakeUpVehicle attempt w in
  count is_fetcher_call (events r) = 0%nat /\
  count is_formatter_call (events r) = 0%nat /\
  count is_publisher_call (events r) = 0%nat.
Proof.
  cbv zeta. wake_cases attempt w.
  - intros. repeat split.
  - intros. repeat split.
  - intros. repeat split.
  - intros attempt w state _ _ _ (Hfetch & Hformat & Hpublish).
    destruct (retried_counts state (wakeUpVehicle (attempt + 1) (world (fetch_WAKE_UP w))))
      as (_ & _ & _ & _ & Hfetch' & Hformat' & Hpublish').
    rewrite Hfetch', Hformat', Hpublish'. repeat split; assumption.
Qed.

(** The monadic bind, by cases on how the first computation ends. *)
Lemma bind_run {A B} (m : M A) (k : A -> M B) (w : World) :
  bind m k w =
  match outcome (m w) with
  | Returned a =>
      mkRun (outcome (k a (world (m w)))) (world (k a (world (m w))))
            (events (m w) ++ events (k a (world (m w))))
  | Thrown => mkRun Thrown (world (m w)) (events (m w))
  end.
Proof. reflexivity. Qed.

(** The telemetry fetcher returns what the endpoint answers, after one
    request, and throws if the request fails. *)
Lemma getChargeData_run (w : World) :
  getChargeData w =
  match charge_reply w with
  | ChargeOk data =>
      mkRun (Returned data) w
            [ConsoleLog "Attempting to get charge data..."; Fetch GET_CHARGE_DATA;
             ConsoleLog "Data fetched succesfully!"; ConsoleLogData data]
  | ChargeFailure =>
      mkRun Thrown w [ConsoleLog "Attempting to get charge data..."; Fetch GET_CHARGE_DATA]
  end.
Proof.
  unfold getChargeData, bind, console_log, emit, ret, fetch_CHARGE_DATA.
  cbn [outcome world events]. destruct (charge_reply w); reflexivity.
Qed.

(** What [runApp] does once the vehicle is awake. *)
Lemma charge_phase (constructLametricData : ChargeData -> M LametricRestData) (w : World) :
  bind getChargeData
       (fun vehicleData =>
          bind (constructLametricData vehicleData)
               (fun lametricData => pushLametricData lametricData)) w =
  match charge_reply w with
  | ChargeFailure =>
      mkRun Thrown w [ConsoleLog "Attempting to get charge data..."; Fetch GET_CHARGE_DATA]
  | ChargeOk data =>
      let format := constructLametricData data w in
      let fetched :=
        ([ConsoleLog "Attempting to get charge data..."; Fetch GET_CHARGE_DATA;
          ConsoleLog "Data fetched succesfully!"; ConsoleLogData data]
         ++ events format)%list in
      match outcome format with
      | Returned lametricData =>
          mkRun (Returned tt) (world format)
                (fetched ++ [Fetch (POST_LAMETRIC_APP (JSON_stringify lametricData))])
      | Thrown => mkRun Thrown (world format) fetched
      end
  end.
Proof.
  rewrite bind_run, getChargeData_run.
  destruct (charge_reply w) as [data |]; cbn [outcome world events]; [| reflexivity].
  rewrite bind_run.
  destruct (outcome (constructLametricData data w)); cbn [pushLametricData emit outcome world events];
    rewrite ?app_assoc; reflexivity.
Qed.

(** One run of [runApp], spelled out: what it does after the wake
    controller, depending on how the controller and the charge-state
    endpoint answer. *)
Lemma runApp_with_step
  (constructLametricData : ChargeData -> M LametricRestData) (w : World) :
  let wake := wakeUpVehicle 1 w in
  let asked_charge :=
    [ConsoleLog "isAwake: true"; ConsoleLog "Attempting to get charge data...";
     Fetch GET_CHARGE_DATA] in
  runApp_with constructLametricData w =
  match outcome wake with
  | Thrown => mkRun Thrown (world wake) (events wake)
  | Returned _ =>
      match charge_reply w with
      | ChargeFailure => mkRun Thrown (world wake) (events wake ++ asked_charge)
      | ChargeOk data =>
          let format := constructLametricData data (world wake) in
          let fetched :=
            (events wake ++ asked_charge
             ++ [ConsoleLog "Data fetched succesfully!"; ConsoleLogData data]
             ++ events format)%list in
          match outcome format with
          | Returned lametricData =>
              mkRun (Returned tt) (world format)
                    (fetched ++ [Fetch (POST_LAMETRIC_APP (JSON_stringify lametricData))])
          | Thrown => mkRun Thrown (world format) fetched
          end
      end
  end.
Proof.
  intros wake asked_charge. subst asked_charge.
  pose proof (wakeUpVehicle_never_false w) as Htrue. fold wake in Htrue.
  pose proof (wake_leaves_charge_endpoint 1 w) as Hcharge.
  fold wake in Hcharge.
  unfold runApp_with. rewrite bind_run. fold wake.
  destruct (outcome wake) as [[|] |]; [| congruence | reflexivity].
  rewrite bind_run. cbn [console_log emit outcome world events].
  rewrite charge_phase, Hcharge.
  destruct (charge_reply w) as [data |]; cbn [outcome world events]; [| reflexivity].
  destruct (outcome (constructLametricData data (world wake)));
    cbn [outcome world events app]; rewrite <- ?app_assoc; reflexivity.
Qed.

Lemma last_event_app (tr : list Event) (e : Event) : last_event (tr ++ [e]) = Some e.
Proof. unfold last_event. now rewrite rev_app_distr. Qed.

(** X8: if a wake request fails, the controller throws, and [runApp] throws
    with it: it does nothing beyond what the controller did, so it neither
    asks for charge data, nor formats, nor publishes, whatever the
    formatter. *)
Theorem runApp_aborts_when_wake_throws
  (constructLametricData : ChargeData -> M LametricRestData) (w : World) :
  outcome (wakeUpVehicle 1 w) = Thrown ->
  let run := runApp_with constructLametricData w in
  outcome run = Thrown /\
  events run = events (wakeUpVehicle 1 w) /\
  count is_fetcher_call (events run) = 0%nat /\
  count is_formatter_call (events run) = 0%nat /\
  count is_publisher_call (events run) = 0%nat.
Proof.
  intros Hwake run. subst run. rewrite runApp_with_step. cbv zeta. rewrite Hwake.
  cbn [outcome events]. split; [reflexivity |]. split; [reflexivity |].
  apply wake_calls_nothing_else.
Qed.

Lemma runApp_aborts_when_wake_throws_example :
  outcome (wakeUpVehicle 1 unreachable) = Thrown /\
  outcome (PolicyB.runApp unreachable) = Thrown /\
  count is_fetcher_call (events (PolicyB.runApp unreachable)) = 0%nat /\
  count is_publisher_call (events (PolicyB.runApp unreachable)) = 0%nat.
Proof.
  assert (Hwake : outcome (wakeUpVehicle 1 unreachable) = Thrown) by reflexivity.
  destruct (runApp_aborts_when_wake_throws PolicyB.constructLametricData unreachable Hwake)
    as (Hout & _ & Hfetch & _ & Hpublish).
  repeat split; assumption.
Defined.

(** X9: if the controller does not throw and the charge-state request
    fails, [runApp] throws after that one request: nothing is formatted and
    nothing is published, whatever the formatter. *)
Theorem runApp_aborts_when_charge_fails
  (constructLametricData : ChargeData -> M LametricRestData) (w : World) :
  outcome (wakeUpVehicle 1 w) <> Thrown ->
  charge_reply w = ChargeFailure ->
  let run := runApp_with constructLametricData w in
  outcome run = Thrown /\
  last_event (events run) = Some (Fetch GET_CHARGE_DATA) /\
  count is_fetcher_call (events run) = 1%nat /\
  count is_formatter_call (events run) = 0%nat /\
  count is_publisher_call (events run) = 0%nat.
Proof.
  intros Hwake Hcharge run. subst run. rewrite runApp_with_step. cbv zeta.
  destruct (wake_calls_nothing_else 1 w) as (Hfetch & Hformat & Hpublish).
  destruct (outcome (wakeUpVehicle 1 w)) as [b |]; [| congruence].
  rewrite Hcharge. cbn [outcome events].
  split; [reflexivity |]. split.
  - change [ConsoleLog "isAwake: true"; ConsoleLog "Attempting to get charge data...";
            Fetch GET_CHARGE_DATA]
      with ([ConsoleLog "isAwake: true"; ConsoleLog "Attempting to get charge data..."]
            ++ [Fetch GET_CHARGE_DATA])%list.
    rewrite app_assoc. apply last_event_app.
  - rewrite !count_app, Hfetch, Hformat, Hpublish. repeat split.
Qed.

Lemma runApp_aborts_when_charge_fails_example :
  outcome (wakeUpVehicle 1 no_charge_data) <> Thrown /\
  charge_reply no_charge_data = ChargeFailure /\
  outcome (PolicyA.runApp no_charge_data) = Thrown /\
  count is_publisher_call (events (PolicyA.runApp no_charge_data)) = 0%nat.
Proof.
  assert (Hwake : outcome (wakeUpVehicle 1 no_charge_data) <> Thrown) by discriminate.
  assert (Hcharge : charge_reply no_charge_data = ChargeFailure) by reflexivity.
  destruct (runApp_aborts_when_charge_fails PolicyA.constructLametricData
              no_charge_data Hwake Hcharge) as (Hout & _ & _ & _ & Hpublish).
  repeat split; assumption.
Defined.

(** What a formatter returns does not depend on the world it runs in. *)
Lemma constructLametricData_world (data : ChargeData) (w1 w2 : World) :
  returned (PolicyA.constructLametricData data w1)
  = returned (PolicyA.constructLametricData data w2) /\
  returned (PolicyB.constructLametricData data w1)
  = returned (PolicyB.constructLametricData data w2).
Proof. split; reflexivity. Qed.

(** X10: if the controller does not throw and the charge-state endpoint
    answers with [data], [runApp] returns, and the last thing it does is to
    post the serialised payload that the variant's formatter gives for
    [data]; it asks for charge data, formats and publishes once each. *)
Theorem runApp_publishes_the_formatted_data (w : World) (data : ChargeData) :
  outcome (wakeUpVehicle 1 w) <> Thrown ->
  charge_reply w = ChargeOk data ->
  exists pA pB,
    returned (PolicyA.constructLametricData data w) = Some pA /\
    returned (PolicyB.constructLametricData data w) = Some pB /\
    outcome (PolicyA.runApp w) = Returned tt /\
    outcome (PolicyB.runApp w) = Returned tt /\
    last_event (events (PolicyA.runApp w))
    = Some (Fetch (POST_LAMETRIC_APP (JSON_stringify pA))) /\
    last_event (events (PolicyB.runApp w))
    = Some (Fetch (POST_LAMETRIC_APP (JSON_stringify pB))) /\
    (count is_fetcher_call (events (PolicyA.runApp w)) = 1%nat /\
     count is_formatter_call (events (PolicyA.runApp w)) = 1%nat /\
     count is_publisher_call (events (PolicyA.runApp w)) = 1%nat) /\
    (count is_fetcher_call (events (PolicyB.runApp w)) = 1%nat /\
     count is_formatter_call (events (PolicyB.runApp w)) = 1%nat /\
     count is_publisher_call (events (PolicyB.runApp w)) = 1%nat).
Proof.
  intros Hwake Hcharge.
  destruct (wake_calls_nothing_else 1 w) as (Hfetch & Hformat & Hpublish).
  destruct (constructLametricData_A_run data w) as [pA HA].
  destruct (constructLametricData_B_run data w) as [pB HB].
  destruct (constructLametricData_A_run data (world (wakeUpVehicle 1 w))) as [pA' HA'].
  destruct (constructLametricData_B_run data (world (wakeUpVehicle 1 w))) as [pB' HB'].
  assert (pA' = pA) as ->.
  { pose proof (proj1 (constructLametricData_world data w (world (wakeUpVehicle 1 w)))) as H.
    unfold returned in H. rewrite HA, HA' in H. cbn [outcome] in H. congruence. }
  assert (pB' = pB) as ->.
  { pose proof (proj2 (constructLametricData_world data w (world (wakeUpVehicle 1 w)))) as H.
    unfold returned in H. rewrite HB, HB' in H. cbn [outcome] in H. congruence. }
  exists pA, pB.
  unfold returned. rewrite HA, HB. cbn [outcome].
  split; [reflexivity |]. split; [reflexivity |].
  unfold PolicyA.runApp, PolicyB.runApp. rewrite !runApp_with_step. cbv zeta.
  destruct (outcome (wakeUpVehicle 1 w)) as [b |]; [| congruence].
  rewrite Hcharge, HA', HB'. cbn [outcome events].
  split; [reflexivity |]. split; [reflexivity |].
  split; [apply last_event_app |]. split; [apply last_event_app |].
  rewrite !count_app, Hfetch, Hformat, Hpublish. repeat split.
Qed.

Lemma runApp_publishes_the_formatted_data_example :
  outcome (wakeUpVehicle 1 (wakes_at 2)) <> Thrown /\
  charge_reply (wakes_at 2) = ChargeOk scenario /\
  exists pB,
    returned (PolicyB.constructLametricData scenario (wakes_at 2)) = Some pB /\
    last_event (events (PolicyB.runApp (wakes_at 2)))
    = Some (Fetch (POST_LAMETRIC_APP (JSON_stringify pB))).
Proof.
  assert (Hwake : outcome (wakeUpVehicle 1 (wakes_at 2)) <> Thrown) by discriminate.
  assert (Hcharge : charge_reply (wakes_at 2) = ChargeOk scenario) by reflexivity.
  destruct (runApp_publishes_the_formatted_data (wakes_at 2) scenario Hwake Hcharge)
    as (pA & pB & _ & HB & _ & _ & _ & Hlast & _).
  split; [exact Hwake |]. split; [exact Hcharge |].
  exists pB. split; [exact HB | exact Hlast].
Defined.

(** X11: whatever the endpoints answer, one run of [runApp] (either
    variant) sends at most 6 wake requests, waits at most 150000 ms, asks
    for charge data at most once and publishes at most once; it publishes
    exactly when it has formatted, and formats only after it has asked for
    charge data; and all its wake requests and waits belong to the wake
    controller, which runs first. *)
Theorem runApp_budget (w : World) :
  let wake := events (wakeUpVehicle 1 w) in
  forall run : Run unit,
    run = PolicyA.runApp w \/ run = PolicyB.runApp w ->
    (wake_requests (events run) <= 6)%nat /\
    (total_wait (events run) <= 150000)%Z /\
    (count is_publisher_call (events run) = count is_formatter_call (events run)) /\
    (count is_formatter_call (events run) <= count is_fetcher_call (events run) <= 1)%nat /\
    exists rest,
      events run = (wake ++ rest)%list /\
      wake_requests rest = 0%nat /\ backoffs rest = 0%nat.
Proof.
  intros wake run Hrun.
  destruct (wake_calls_nothing_else 1 w) as (Hfetch & Hformat & Hpublish).
  destruct (wake_waits 1 w) as (Hreq & Hwait & Hleft).
  unfold attempts_left in Hleft. cbn in Hleft.
  fold wake in Hfetch, Hformat, Hpublish, Hreq, Hwait, Hleft.
  assert (Hshape :
    exists rest,
      events run = (wake ++ rest)%list /\
      wake_requests rest = 0%nat /\ backoffs rest = 0%nat /\ total_wait rest = 0%Z /\
      count is_publisher_call rest = count is_formatter_call rest /\
      (count is_formatter_call rest <= count is_fetcher_call rest <= 1)%nat).
  { destruct Hrun as [-> | ->];
      unfold PolicyA.runApp, PolicyB.runApp; rewrite runApp_with_step; cbv zeta;
      fold wake;
      (destruct (outcome (wakeUpVehicle 1 w)) as [b |];
       [destruct (charge_reply w) as [data |] |]).
    all: try (cbn [events]; eexists; split; [reflexivity |]; cbn; repeat split; lia).
    all: try (cbn [events]; exists []; rewrite app_nil_r; split; [reflexivity |];
              cbn; repeat split; lia).
    - destruct (constructLametricData_A_run data (world (wakeUpVehicle 1 w))) as [p Hp].
      rewrite Hp. cbn [outcome events]. rewrite <- !app_assoc.
      eexists. split; [reflexivity |]. cbn. repeat split; lia.
    - destruct (constructLametricData_B_run data (world (wakeUpVehicle 1 w))) as [p Hp].
      rewrite Hp. cbn [outcome events]. rewrite <- !app_assoc.
      eexists. split; [reflexivity |]. cbn. repeat split; lia. }
  destruct Hshape as (rest & Hevents & Hreq_rest & Hback_rest & Hwait_rest & Hpub & Hfmt).
  rewrite Hevents. unfold wake_requests, backoffs in *.
  rewrite !count_app, total_wait_app, Hfetch, Hformat, Hpublish, Hwait_rest.
  split; [lia |]. split; [lia |]. split; [lia |]. split; [lia |].
  exists rest. repeat split; assumption.
Qed.

Lemma runApp_budget_example :
  (wake_requests (events (PolicyB.runApp never_wakes)) <= 6)%nat /\
  (total_wait (events (PolicyB.runApp never_wakes)) <= 150000)%Z.
Proof.
  destruct (runApp_budget never_wakes (PolicyB.runApp never_wakes) (or_intror eq_refl))
    as (Hreq & Hwait & _).
  split; [exact Hreq | exact Hwait].
Defined.

(** ** The icon resolver and the formatter, further *)

(** The tier table shared by the two variants, as a function of the four
    comparisons it makes. *)
Lemma tier_cases (batteryLevel : Q) :
  let tier :=
    if JS.lt batteryLevel 25 then "i6359"
    else if JS.lt batteryLevel 50 then "i6360"
    else if JS.lt batteryLevel 75 then "i6361"
    else if JS.lt batteryLevel 95 then "i6362"
    else "i6363" in
  In tier ["i6359"; "i6360"; "i6361"; "i6362"; "i6363"].
Proof.
  cbv zeta.
  destruct (JS.lt batteryLevel 25); [now left |].
  destruct (JS.lt batteryLevel 50); [now right; left |].
  destruct (JS.lt batteryLevel 75); [now do 2 right; left |].
  destruct (JS.lt batteryLevel 95); [now do 3 right; left |].
  now do 4 right; left.
Qed.

(** X12: the icon resolver does not check the range of the battery level: a
    level below 25, negative ones included, gets the lowest tier, and a level
    of 95 or more, also above 100, gets the highest. *)
Theorem getIcon_clamps (batteryLevel : Q) :
  (batteryLevel < 25 ->
   PolicyA.getIcon batteryLevel true = "i6359" /\
   PolicyB.getIcon batteryLevel false = "i6359") /\
  (95 <= batteryLevel ->
   PolicyA.getIcon batteryLevel true = "i6363" /\
   PolicyB.getIcon batteryLevel false = "i6363").
Proof.
  unfold PolicyA.getIcon, PolicyB.getIcon. cbn [negb]. split.
  - intros Hlow. rewrite (proj2 (lt_true batteryLevel 25) Hlow). now split.
  - intros Hhigh.
    assert (Hge : forall bound, bound <= 95 -> JS.lt batteryLevel bound = false).
    { intros bound Hbound. apply lt_false. now apply Qle_trans with 95. }
    rewrite (Hge 25), (Hge 50), (Hge 75), (Hge 95); try discriminate. now split.
Qed.

Lemma getIcon_clamps_examples :
  PolicyB.getIcon (-5) false = "i6359" /\ PolicyA.getIcon 150 true = "i6363".
Proof.
  split.
  - apply (proj1 (getIcon_clamps (-5))). reflexivity.
  - apply (proj2 (getIcon_clamps 150)). discriminate.
Defined.

(** X13: the two variants never show the same battery icon for the same
    level and charging flag; the tiers one variant shows while charging are
    the tiers the other shows while not charging. *)
Theorem variants_swap_battery_icons (batteryLevel : Q) (isCharging : bool) :
  PolicyA.getIcon batteryLevel isCharging <> PolicyB.getIcon batteryLevel isCharging /\
  PolicyA.getIcon batteryLevel true = PolicyB.getIcon batteryLevel false.
Proof.
  split; [| reflexivity].
  pose proof (tier_cases batteryLevel) as Htier. cbv zeta in Htier.
  unfold PolicyA.getIcon, PolicyB.getIcon.
  destruct isCharging; cbn [negb];
    destruct Htier as [<- | [<- | [<- | [<- | [<- | []]]]]]; discriminate.
Qed.

(** X14: on the same telemetry the texts of the three-frame variant are the
    first three texts of [app.js], which has either three or six frames. *)
Theorem policyA_texts_prefix_policyB (data : ChargeData) (w : World) :
  exists pA pB,
    returned (PolicyA.constructLametricData data w) = Some pA /\
    returned (PolicyB.constructLametricData data w) = Some pB /\
    map text (frames pA) = firstn 3 (map text (frames pB)) /\
    (length (frames pB) = 3%nat \/ length (frames pB) = 6%nat).
Proof.
  do 2 eexists. split; [reflexivity |]. split; [reflexivity |].
  cbn [frames]. destruct (PolicyB.isCharging data); split; try reflexivity.
  - now right.
  - now left.
Qed.

Lemma Qfloor_unique (x : Q) (k : Z) :
  inject_Z k <= x -> x < inject_Z (k + 1) -> Qfloor x = k.
Proof.
  intros Hlo Hhi.
  pose proof (Qfloor_le x) as Hfloor_lo. pose proof (Qlt_floor x) as Hfloor_hi.
  assert (H1 : (Qfloor x < k + 1)%Z).
  { rewrite Zlt_Qlt. now apply Qle_lt_trans with x. }
  assert (H2 : (k < Qfloor x + 1)%Z).
  { rewrite Zlt_Qlt. now apply Qle_lt_trans with x. }
  lia.
Qed.




(** X16: the formatter's rounding is rounding half away from zero on every
    number except the negative ones that lie exactly halfway between two
    integers: those go to the integer above (-2.5 to -2), one more than
    rounding half away from zero gives. *)
Theorem Math_round_versus_half_away (x : Q) :
  (JS.Math_round x = round_half_away_from_zero x \/
   (x < 0 /\
    inject_Z (JS.Math_round x) == x + (1 # 2) /\
    JS.Math_round x = (round_half_away_from_zero x + 1)%Z)) /\
  (rounded (-2.5) = "-2" /\ round_half_away_from_zero (-2.5) = (-3)%Z).
Proof.
  split; [| split; reflexivity].
  destruct (Qlt_le_dec x 0) as [Hneg | Hpos]; [| left; now apply Math_round_half_away].
  assert (Hsgn : Z.sgn (Qnum x) = (-1)%Z).
  { destruct x as [n d]. unfold Qlt in Hneg. cbn in Hneg. cbn [Qnum]. lia. }
  assert (Habs : Qabs x == - x) by (apply Qabs_neg; now apply Qlt_le_weak).
  unfold round_half_away_from_zero. rewrite Hsgn.
  rewrite (Qfloor_comp (Qabs x + (1 # 2)) (- x + (1 # 2))) by (now rewrite Habs).
  destruct (Math_round_nearest x) as [Hlo Hhi].
  set (m := JS.Math_round x) in *.
  destruct (Qeq_dec (inject_Z m) (x + (1 # 2))) as [Htie | Hnot].
  - right. split; [exact Hneg |]. split; [exact Htie |].
    rewrite (Qfloor_unique (- x + (1 # 2)) (1 - m)); [lia | |].
    + unfold Z.sub. rewrite inject_Z_plus, inject_Z_opp. change (inject_Z 1) with 1.
      revert Htie. generalize (inject_Z m). intros q Htie. lra.
    + replace (1 - m + 1)%Z with (2 + - m)%Z by lia.
      rewrite inject_Z_plus, inject_Z_opp. change (inject_Z 2) with 2.
      revert Htie. generalize (inject_Z m). intros q Htie. lra.
  - left.
    assert (Hstrict : inject_Z m - (1 # 2) < x).
    { apply Qle_lt_or_eq in Hlo. destruct Hlo as [Hlt | Heq]; [exact Hlt |].
      exfalso. apply Hnot. rewrite <- Heq. ring. }
    rewrite (Qfloor_unique (- x + (1 # 2)) (- m)); [lia | |].
    + rewrite inject_Z_opp.
      revert Hhi. generalize (inject_Z m). intros q Hhi. lra.
    + replace (- m + 1)%Z with (1 + - m)%Z by lia.
      rewrite inject_Z_plus, inject_Z_opp. change (inject_Z 1) with 1.
      revert Hstrict. generalize (inject_Z m). intros q Hstrict. lra.
Qed.

Lemma escape_all_app (s1 s2 : string) :
  JS.escape_all (s1 ++ s2) = JS.escape_all s1 ++ JS.escape_all s2.
Proof.
  induction s1 as [| c s1 IH]; [reflexivity |].
  cbn [String.append JS.escape_all]. rewrite IH.
  generalize (JS.escape c). intros e.
  induction e as [| c' e IHe]; [reflexivity |]. cbn [String.append]. now rewrite IHe.
Qed.

(** Decimal digits and the minus sign are not escaped. *)
Lemma escape_all_digits (d : Decimal.uint) :
  JS.escape_all (NilEmpty.string_of_uint d) = NilEmpty.string_of_uint d.
Proof.
  induction d; cbn [NilEmpty.string_of_uint]; [reflexivity | ..];
    cbn [JS.escape_all]; rewrite IHd; reflexivity.
Qed.

Lemma escape_all_number (n : Z) :
  JS.escape_all (JS.Number_toString n) = JS.Number_toString n.
Proof.
  assert (H : forall d, JS.escape_all (NilZero.string_of_uint d) = NilZero.string_of_uint d).
  { intros d. unfold NilZero.string_of_uint.
    destruct d; [reflexivity | apply escape_all_digits ..]. }
  unfold JS.Number_toString, NilZero.string_of_int.
  destruct (Z.to_int n) as [d | d]; [apply H |].
  cbn [JS.escape_all]. rewrite H. reflexivity.
Qed.

Lemma escape_all_rounded (x : Q) (before after : string) :
  JS.escape_all before = before -> JS.escape_all after = after ->
  JS.escape_all (before ++ rounded x ++ after) = before ++ rounded x ++ after.
Proof.
  intros Hbefore Hafter. unfold rounded.
  now rewrite !escape_all_app, escape_all_number, Hbefore, Hafter.
Qed.

Lemma escape_all_getIcon (batteryLevel : Q) (isCharging : bool) :
  JS.escape_all (PolicyA.getIcon batteryLevel isCharging)
  = PolicyA.getIcon batteryLevel isCharging /\
  JS.escape_all (PolicyB.getIcon batteryLevel isCharging)
  = PolicyB.getIcon batteryLevel isCharging.
Proof.
  pose proof (tier_cases batteryLevel) as Htier. cbv zeta in Htier.
  unfold PolicyA.getIcon, PolicyB.getIcon.
  destruct isCharging; cbn [negb];
    destruct Htier as [<- | [<- | [<- | [<- | [<- | []]]]]]; split; reflexivity.
Qed.

(** X17: nothing the formatters produce needs escaping when it is
    serialised: in every frame of either variant, text and icon go into the
    request body as they are, between quotes. *)
Theorem formatter_output_needs_no_escaping (data : ChargeData) (w : World) :
  exists pA pB,
    returned (PolicyA.constructLametricData data w) = Some pA /\
    returned (PolicyB.constructLametricData data w) = Some pB /\
    Forall (fun f => JS.escape_all (text f) = text f /\ JS.escape_all (icon f) = icon f)
           (frames pA ++ frames pB).
Proof.
  do 2 eexists. split; [reflexivity |]. split; [reflexivity |].
  cbn [frames].
  destruct (escape_all_getIcon (battery_level (response data)) (PolicyA.isCharging data))
    as [HiconA _].
  destruct (escape_all_getIcon (battery_level (response data)) (PolicyB.isCharging data))
    as [_ HiconB].
  pose proof (fun x after => escape_all_rounded x EmptyString after eq_refl) as Hplain.
  cbn [String.append] in Hplain.
  pose proof (escape_all_rounded (charge_miles_added_ideal (response data)) "+" " mi"
                eq_refl eq_refl) as Hadded.
  destruct (PolicyB.isCharging data) eqn:Hcharging; cbn [app];
    repeat (apply Forall_cons; [cbn [text icon]; split |]);
    try apply Forall_nil;
    try reflexivity; try assumption;
    try (apply Hplain; reflexivity).
Qed.

(** X18: in [app.js] the battery frame tells the layout: the payload has
    six frames exactly when the second frame carries the charging animation
    ['21585'], and three frames exactly when it carries one of the five
    tier icons. *)
Theorem policyB_icon_tracks_layout (data : ChargeData) (w : World) :
  exists p second,
    returned (PolicyB.constructLametricData data w) = Some p /\
    nth_error (frames p) 1 = Some second /\
    (length (frames p) = 6%nat <-> icon second = "21585") /\
    (length (frames p) = 3%nat
     <-> In (icon second) ["i6359"; "i6360"; "i6361"; "i6362"; "i6363"]).
Proof.
  eexists.
  exists {| text := rounded (battery_level (response data)) ++ "%";
            icon := PolicyB.getIcon (battery_level (response data))
                                    (PolicyB.isCharging data);
            index := None |}.
  split; [reflexivity |]. cbn [frames icon].
  pose proof (tier_cases (battery_level (response data))) as Htier. cbv zeta in Htier.
  unfold PolicyB.getIcon.
  destruct (PolicyB.isCharging data); cbn [app nth_error length].
  - split; [reflexivity |]. split; [split; reflexivity |].
    split; [discriminate |].
    intros [H | [H | [H | [H | [H | []]]]]]; discriminate H.
  - split; [reflexivity |]. split.
    + split; [discriminate |]. intros H. exfalso. rewrite H in Htier.
      destruct Htier as [H' | [H' | [H' | [H' | [H' | []]]]]]; discriminate H'.
    + split; [intros _; exact Htier | reflexivity].
Qed.

Lemma policyB_icon_tracks_layout_scenario :
  exists p second,
    returned (PolicyB.constructLametricData scenario never_wakes) = Some p /\
    nth_error (frames p) 1 = Some second /\
    icon second = "21585" /\
    length (frames p) = 6%nat.
Proof.
  destruct (policyB_icon_tracks_layout scenario never_wakes)
    as (p & second & Hp & Hsecond & Hsix & _).
  assert (Hicon : icon second = "21585").
  { injection Hp as <-. injection Hsecond as <-. reflexivity. }
  exists p, second. split; [exact Hp |]. split; [exact Hsecond |].
  split; [exact Hicon | exact (proj2 Hsix Hicon)].
Defined.

(** X19: the formatters read only the fields they show or test.  The
    three-frame variant depends on battery level, range and charger current
    alone; [app.js] never looks at the charger current, and when
    [charge_rate] is -1 it depends on battery level and range alone. *)
Theorem formatters_ignore_unused_fields (d1 d2 : ChargeData) (w1 w2 : World) :
  battery_level (response d1) == battery_level (response d2) ->
  battery_range (response d1) == battery_range (response d2) ->
  (charger_actual_current (response d1) == charger_actual_current (response d2) ->
   returned (PolicyA.constructLametricData d1 w1)
   = returned (PolicyA.constructLametricData d2 w2)) /\
  (charge_rate (response d1) == -1 -> charge_rate (response d2) == -1 ->
   returned (PolicyB.constructLametricData d1 w1)
   = returned (PolicyB.constructLametricData d2 w2)) /\
  (charge_rate (response d1) == charge_rate (response d2) ->
   charge_miles_added_ideal (response d1) == charge_miles_added_ideal (response d2) ->
   time_to_full_charge (response d1) == time_to_full_charge (response d2) ->
   returned (PolicyB.constructLametricData d1 w1)
   = returned (PolicyB.constructLametricData d2 w2)).
Proof.
  intros Hlevel Hrange.
  assert (HA : forall c, PolicyA.getIcon (battery_level (response d1)) c
                         = PolicyA.getIcon (battery_level (response d2)) c)
    by (intros c; now apply getIcon_A_comp).
  assert (HB : forall c, PolicyB.getIcon (battery_level (response d1)) c
                         = PolicyB.getIcon (battery_level (response d2)) c)
    by (intros c; now apply getIcon_B_comp).
  unfold returned, PolicyA.constructLametricData, PolicyB.constructLametricData,
    bind, emit, ret.
  cbn [outcome world events].
  rewrite (Math_round_comp _ _ Hlevel), (Math_round_comp _ _ Hrange), !HA, !HB.
  split; [| split].
  - intros Hcurrent. unfold PolicyA.isCharging.
    now rewrite (lt_comp 0 0 (Qeq_refl 0) _ _ Hcurrent).
  - intros Hidle1 Hidle2. unfold PolicyB.isCharging.
    rewrite (neq_comp _ _ Hidle1 (-1) (-1) (Qeq_refl _)),
      (neq_comp _ _ Hidle2 (-1) (-1) (Qeq_refl _)).
    reflexivity.
  - intros Hrate Hadded Htime. unfold PolicyB.isCharging.
    rewrite (neq_comp _ _ Hrate (-1) (-1) (Qeq_refl _)),
      (Math_round_comp _ _ Hrate), (Math_round_comp _ _ Hadded),
      (Math_round_comp _ _ Htime).
    reflexivity.
Qed.

Lemma formatters_ignore_unused_fields_example :
  let idle level range current added hours :=
    {| response := {| battery_level := level; battery_range := range;
                      charge_rate := -1; charger_actual_current := current;
                      charge_miles_added_ideal := added;
                      time_to_full_charge := hours |} |} in
  returned (PolicyB.constructLametricData (idle 60 180.2 0 5.3 1.4) never_wakes)
  = returned (PolicyB.constructLametricData (idle 60 180.2 16 0 0) (wakes_at 1)).
Proof.
  intros idle.
  refine (proj1 (proj2 (formatters_ignore_unused_fields
                          (idle 60 180.2 0 5.3 1.4) (idle 60 180.2 16 0 0)
                          never_wakes (wakes_at 1) _ _)) _ _); reflexivity.
Defined.

(** ** What the log says *)

(** X20: the line "Vehicle is a awake!" is logged by every attempt that
    returns: once per request when the last reply is "online", once per
    request but the last when the controller gave up on a vehicle that never
    came online, and not at all when a wake request failed. *)
Theorem awake_lines_per_attempt (attempt : Z) (w : World) :
  let r := wakeUpVehicle attempt w in
  let final := last (wake_responses (events r)) WakeFailure in
  wake_responses (events r) <> [] /\
  awake_lines (events r)
  = match final with
    | WakeFailure => 0%nat
    | WakeState _ =>
        if undecided final then (wake_requests (events r) - 1)%nat
        else wake_requests (events r)
    end.
Proof.
  cbv zeta. wake_cases attempt w.
  - intros attempt w _. cbn. split; [discriminate | reflexivity].
  - intros attempt w state _ Hstate. cbn. rewrite Hstate.
    split; [discriminate | reflexivity].
  - intros attempt w state _ Hstate _. cbn. rewrite Hstate.
    split; [discriminate | reflexivity].
  - intros attempt w state _ _ Hlt [Hnonempty Hlines].
    destruct (wake_throws_iff_last_failed (attempt + 1) (world (fetch_WAKE_UP w)))
      as (_ & Hthrown).
    destruct (wake_waits (attempt + 1) (world (fetch_WAKE_UP w))) as (Hpositive & _).
    set (r := wakeUpVehicle (attempt + 1) (world (fetch_WAKE_UP w))) in *.
    destruct (retried_counts state r) as (Hreq & _ & _ & Hresp & _).
    rewrite Hresp, Hreq. split; [discriminate |].
    replace (last (WakeState state :: wake_responses (events r)) WakeFailure)
      with (last (wake_responses (events r)) WakeFailure)
      by (destruct (wake_responses (events r)); [contradiction | reflexivity]).
    unfold awake_lines, retried in *. cbn [events].
    rewrite !count_app, Hlines.
    change (count is_awake_line (asked (WakeState state))) with 0%nat.
    replace (count is_awake_line
               [ConsoleLog ("Vehicle is still " ++ state ++ ". Retrying in 30 seconds...");
                SetTimeout 30000]) with 0%nat by reflexivity.
    destruct (last (wake_responses (events r)) WakeFailure) as [final_state |].
    + assert (Hout : exists b, outcome r = Returned b).
      { destruct (outcome r) as [b |]; [now exists b |].
        assert (H : WakeState final_state = WakeFailure) by now apply Hthrown.
        discriminate H. }
      destruct Hout as [b ->]. cbn [count filter is_awake_line String.eqb length].
      destruct (undecided (WakeState final_state)); cbn; lia.
    + rewrite (proj2 Hthrown eq_refl). reflexivity.
Qed.

(** ** The test sender *)

(** [testSend] posts its fixed frames to the display and does nothing
    else, in either variant. *)
Lemma testSend_posts_once (w : World) :
  count is_publisher_call (events (PolicyA.testSend w)) = 1%nat /\
  count is_publisher_call (events (PolicyB.testSend w)) = 1%nat /\
  wake_requests (events (PolicyA.script w)) = 0%nat /\
  count is_fetcher_call (events (PolicyA.script w)) = 0%nat /\
  world (PolicyA.script w) = w.
Proof. repeat split. Qed.
